(** * eventing-kafka: dispatcher reconciliation and secret-scoped status fan-out

    A shallow embedding of two reconcilers of the distributed KafkaChannel
    controller:

    - package [kafkasecret]: [reconcileKafkaChannelStatus] and
      [updateKafkaChannelStatus] (the Status Aggregator);
    - package [kafkachannel]: [reconcileDispatcher] and the service and
      deployment reconcilers and builders below it (the Reconciliation
      Engine and the Desired-State Builder).

    Go packages become modules of the same name.  Calls to collaborators
    (listers, clientsets, the event recorder) are recorded in a history of
    events; what a collaborator answers is decided by a [Cluster], which
    sees the whole history so far, so that every theorem quantified over
    the cluster covers every interleaving with other writers.  Logger
    calls carry no decision and are left out; [context.Context] is passed
    through unchanged by the source and is left out as well. *)

From stdpp Require Import base decidable option list strings gmap pretty.
From Stdlib Require Import ZArith Lia.

(** ** k8s.io/apimachinery/pkg/api/errors *)

Module errors.

Inductive StatusReason :=
| StatusReasonUnknown
| StatusReasonNotFound
| StatusReasonAlreadyExists
| StatusReasonConflict
| StatusReasonForbidden
| StatusReasonInvalid
| StatusReasonTimeout
| StatusReasonInternalError.

(** A Go [error]: an API status error, or a plain one from [fmt.Errorf]. *)
Inductive error :=
| StatusError (reason : StatusReason) (message : string)
| Errorf (message : string).

Definition Error (err : error) : string :=
  match err with
  | StatusError _ message => message
  | Errorf message => message
  end.

Definition IsNotFound (err : error) : bool :=
  match err with
  | StatusError StatusReasonNotFound _ => true
  | _ => false
  end.

Definition IsConflict (err : error) : bool :=
  match err with
  | StatusError StatusReasonConflict _ => true
  | _ => false
  end.

Definition NewNotFound (resource name : string) : error :=
  StatusError StatusReasonNotFound (resource +:+ " " +:+ name +:+ " not found").

End errors.

Abbreviation error := errors.error.

(** The test [err != nil]. *)
Definition isErr (err : option error) : bool :=
  match err with Some _ => true | None => false end.

(** ** k8s.io/apimachinery/pkg/apis/meta/v1 *)

Module metav1.

Record OwnerReference := {
  APIVersion : string;
  Kind : string;
  RefName : string;
  BlockOwnerDeletion : bool;
  Controller : bool
}.

Record ObjectMeta := {
  Name : string;
  Namespace : string;
  ResourceVersion : string;
  Labels : gmap string string;
  OwnerReferences : list OwnerReference
}.

End metav1.

(** ** k8s.io/apimachinery/pkg/labels and pkg/selection *)

Module labels.

Inductive Operator :=
| DoesNotExist | Equals | DoubleEquals | In | NotEquals | NotIn | Exists.

Record Requirement := {
  key : string;
  operator : Operator;
  strValues : list string
}.

(** [internalSelector] is a slice of requirements. *)
Definition Selector := list Requirement.

(** [NewSelector] returns the nil selector. *)
Definition NewSelector : Selector := [].

(** [Add] has a value receiver: it copies the selector and returns the
    copy extended with the requirements; the receiver is left as it
    was.  (The library also sorts the copy by key, which no caller here
    observes.) *)
Definition Add (lsel : Selector) (reqs : list Requirement) : Selector :=
  lsel ++ reqs.

Definition Empty (lsel : Selector) : bool :=
  match lsel with [] => true | _ => false end.

Definition hasValue (r : Requirement) (value : string) : bool :=
  existsb (String.eqb value) (strValues r).

Definition RequirementMatches (r : Requirement) (ls : gmap string string) : bool :=
  match operator r with
  | In | Equals | DoubleEquals =>
      match ls !! key r with
      | None => false
      | Some v => hasValue r v
      end
  | NotIn | NotEquals =>
      match ls !! key r with
      | None => true
      | Some v => negb (hasValue r v)
      end
  | Exists => bool_decide (is_Some (ls !! key r))
  | DoesNotExist => negb (bool_decide (is_Some (ls !! key r)))
  end.

(** A selector matches when every requirement does; the nil selector
    therefore matches every label set. *)
Definition Matches (lsel : Selector) (ls : gmap string string) : bool :=
  forallb (fun r => RequirementMatches r ls) lsel.

(** [NewRequirement] validates the key, the number of values demanded by
    the operator, and every value; the two validators are the library's
    and are taken as arguments. *)
Definition NewRequirement
    (validateLabelKey : string -> bool)
    (validateLabelValue : string -> string -> bool)
    (k : string) (op : Operator) (vals : list string) : error + Requirement :=
  if negb (validateLabelKey k) then
    inl (errors.Errorf ("invalid label key " +:+ k))
  else if
    match op with
    | In | NotIn => bool_decide (length vals = 0%nat)
    | Equals | DoubleEquals | NotEquals => negb (bool_decide (length vals = 1%nat))
    | Exists | DoesNotExist => negb (bool_decide (length vals = 0%nat))
    end
  then inl (errors.Errorf "wrong number of values for the operator")
  else if negb (forallb (validateLabelValue k) vals) then
    inl (errors.Errorf ("invalid label value for key " +:+ k))
  else inr {| key := k; operator := op; strValues := vals |}.

End labels.

(** ** knative.dev/eventing-kafka/pkg/apis/messaging/v1beta1 *)

Module kafkav1beta1.

Inductive ConditionStatus := ConditionTrue | ConditionFalse | ConditionUnknown.

(** Modelled from the spec: the lifecycle file of the channel type is not
    among the sources.  A condition holds a state (True, False or
    Unknown), a reason and a message; the status is the set of leaf
    conditions the two reconcilers mark.  The names of the leaves are the
    ones of the [Mark...] calls in the source: Service, Endpoints (where
    the secret reconciler tracks the deployment) and Dispatcher. *)
Record Condition := {
  State : ConditionStatus;
  Reason : string;
  Message : string
}.

Record KafkaChannelStatus := {
  Service : option Condition;
  Endpoints : option Condition;
  Dispatcher : option Condition
}.

Record KafkaChannel := {
  ObjectMeta : metav1.ObjectMeta;
  Status : KafkaChannelStatus
}.

Definition Name (kc : KafkaChannel) : string := metav1.Name (ObjectMeta kc).
Definition Namespace (kc : KafkaChannel) : string := metav1.Namespace (ObjectMeta kc).

Definition markTrue : Condition :=
  {| State := ConditionTrue; Reason := EmptyString; Message := EmptyString |}.
Definition markFalse (reason message : string) : Condition :=
  {| State := ConditionFalse; Reason := reason; Message := message |}.
Definition markUnknown (reason message : string) : Condition :=
  {| State := ConditionUnknown; Reason := reason; Message := message |}.

(** Modelled from the spec: marking a leaf sets that leaf's state, reason
    and message and leaves the other leaves alone. *)
Definition MarkServiceTrue (cs : KafkaChannelStatus) : KafkaChannelStatus :=
  {| Service := Some markTrue; Endpoints := Endpoints cs; Dispatcher := Dispatcher cs |}.
Definition MarkServiceFailed (reason message : string) (cs : KafkaChannelStatus) : KafkaChannelStatus :=
  {| Service := Some (markFalse reason message); Endpoints := Endpoints cs; Dispatcher := Dispatcher cs |}.
Definition MarkEndpointsTrue (cs : KafkaChannelStatus) : KafkaChannelStatus :=
  {| Service := Service cs; Endpoints := Some markTrue; Dispatcher := Dispatcher cs |}.
Definition MarkEndpointsFailed (reason message : string) (cs : KafkaChannelStatus) : KafkaChannelStatus :=
  {| Service := Service cs; Endpoints := Some (markFalse reason message); Dispatcher := Dispatcher cs |}.
Definition MarkDispatcherFailed (reason message : string) (cs : KafkaChannelStatus) : KafkaChannelStatus :=
  {| Service := Service cs; Endpoints := Endpoints cs; Dispatcher := Some (markFalse reason message) |}.
Definition MarkDispatcherUnknown (reason message : string) (cs : KafkaChannelStatus) : KafkaChannelStatus :=
  {| Service := Service cs; Endpoints := Endpoints cs; Dispatcher := Some (markUnknown reason message) |}.

Definition stateOf (c : option Condition) : option ConditionStatus := State <$> c.

(** Writing through [channel.Status]. *)
Definition withStatus (kc : KafkaChannel) (cs : KafkaChannelStatus) : KafkaChannel :=
  {| ObjectMeta := ObjectMeta kc; Status := cs |}.

(** [DeepCopy] yields an equal value that shares nothing with the
    original; values here are immutable, so it is the identity. *)
Definition DeepCopy (kc : KafkaChannel) : KafkaChannel := kc.

#[global] Instance ConditionStatus_eq_dec : EqDecision ConditionStatus.
Proof. solve_decision. Defined.
#[global] Instance Condition_eq_dec : EqDecision Condition.
Proof. solve_decision. Defined.
#[global] Instance KafkaChannelStatus_eq_dec : EqDecision KafkaChannelStatus.
Proof. solve_decision. Defined.

End kafkav1beta1.

(** [equality.Semantic.DeepEqual] on two statuses: structural equality. *)
Module equality.
Definition DeepEqual (a b : kafkav1beta1.KafkaChannelStatus) : bool :=
  bool_decide (a = b).
End equality.

(** ** k8s.io/api/core/v1 *)

Module corev1.

Record TypeMeta := {
  APIVersion : string;
  Kind : string
}.

Record Secret := {
  Secret_ObjectMeta : metav1.ObjectMeta;
  Data : gmap string string
}.

Record ObjectFieldSelector := { FieldPath : string }.

Record SecretKeySelector := {
  LocalObjectReference : string;
  Key : string
}.

Record EnvVarSource := {
  FieldRef : option ObjectFieldSelector;
  SecretKeyRef : option SecretKeySelector
}.

Record EnvVar := {
  Name : string;
  Value : string;
  ValueFrom : option EnvVarSource
}.

Record ServicePort := {
  Port_Name : string;
  Port : Z;
  TargetPort : Z
}.

Record ServiceSpec := {
  Ports : list ServicePort;
  Selector : gmap string string
}.

Record Service := {
  Service_TypeMeta : TypeMeta;
  Service_ObjectMeta : metav1.ObjectMeta;
  Service_Spec : ServiceSpec
}.

Record HTTPGetAction := {
  HTTPGet_Port : Z;
  HTTPGet_Path : string
}.

Record Probe := {
  HTTPGet : option HTTPGetAction;
  InitialDelaySeconds : Z;
  PeriodSeconds : Z
}.

Inductive PullPolicy := PullAlways | PullNever | PullIfNotPresent.

(** A [ResourceList] holding the two quantities the source sets. *)
Record ResourceList := {
  ResourceMemory : string;
  ResourceCPU : string
}.

Record ResourceRequirements := {
  Limits : ResourceList;
  Requests : ResourceList
}.

Record Container := {
  Container_Name : string;
  LivenessProbe : option Probe;
  ReadinessProbe : option Probe;
  Image : string;
  Env : list EnvVar;
  ImagePullPolicy : PullPolicy;
  Resources : ResourceRequirements
}.

Record PodSpec := {
  ServiceAccountName : string;
  Containers : list Container
}.

Record PodTemplateSpec := {
  Template_Labels : gmap string string;
  Template_Spec : PodSpec
}.

Inductive EventType := EventTypeNormal | EventTypeWarning.

End corev1.

(** ** k8s.io/api/apps/v1 *)

Module appsv1.

Record DeploymentCondition := {
  Condition_Type : string;
  Condition_Status : kafkav1beta1.ConditionStatus;
  Condition_Reason : string;
  Condition_Message : string
}.

Record DeploymentStatus := {
  Status_Replicas : Z;
  UpdatedReplicas : Z;
  ReadyReplicas : Z;
  AvailableReplicas : Z;
  UnavailableReplicas : Z;
  Conditions : list DeploymentCondition
}.

Record DeploymentSpec := {
  Replicas : option Z;
  MatchLabels : gmap string string;
  Template : corev1.PodTemplateSpec
}.

Record Deployment := {
  TypeMeta : corev1.TypeMeta;
  ObjectMeta : metav1.ObjectMeta;
  Spec : DeploymentSpec;
  Status : DeploymentStatus
}.

(** The zero value a struct literal leaves in [Status]. *)
Definition zeroStatus : DeploymentStatus :=
  {| Status_Replicas := 0; UpdatedReplicas := 0; ReadyReplicas := 0;
     AvailableReplicas := 0; UnavailableReplicas := 0; Conditions := [] |}.

End appsv1.

(** Go's conversion [int32(x)] of an [int]: the low 32 bits, signed. *)
Definition int32 (x : Z) : Z := ((x + 2 ^ 31) mod 2 ^ 32 - 2 ^ 31)%Z.

(** [intstr.FromInt]: the integer is stored as [int32(val)]. *)
Module intstr.
Definition FromInt (val : Z) : Z := int32 val.
End intstr.

(** [strconv.Itoa]. *)
Definition Itoa (x : Z) : string := pretty x.

(** ** Package-level names the two files import

    Constants and helpers of packages whose sources are not at hand
    ([commonconstants], [constants], [commonenv], [health], [logging],
    [system], [util]), the label validators of [labels], and
    [PropagateDispatcherStatus] of the channel's lifecycle file.  Each is
    taken as given, under the name the source uses. *)

Record Imports := {
  (* commonconstants *)
  KnativeEventingNamespace : string;
  (* constants *)
  KafkaSecretLabel : string;
  AppLabel : string;
  KafkaChannelDispatcherLabel : string;
  KafkaChannelNameLabel : string;
  KafkaChannelNamespaceLabel : string;
  K8sAppDispatcherSelectorLabel : string;
  K8sAppDispatcherSelectorValue : string;
  ServiceKind : string;
  DeploymentKind : string;
  MetricsPortName : string;
  HealthPort : Z;
  DispatcherLivenessDelay : Z;
  DispatcherLivenessPeriod : Z;
  DispatcherReadinessDelay : Z;
  DispatcherReadinessPeriod : Z;
  DispatcherContainerName : string;
  KafkaSecretDataKeyBrokers : string;
  KafkaSecretDataKeyUsername : string;
  KafkaSecretDataKeyPassword : string;
  (* system, commonenv *)
  NamespaceEnvKey : string;
  PodNameEnvVarKey : string;
  ContainerNameEnvVarKEy : string;
  KnativeLoggingConfigMapNameEnvVarKey : string;
  MetricsPortEnvVarKey : string;
  MetricsDomainEnvVarKey : string;
  HealthPortEnvVarKey : string;
  ChannelKeyEnvVarKey : string;
  ServiceNameEnvVarKey : string;
  KafkaTopicEnvVarKey : string;
  KafkaBrokerEnvVarKey : string;
  KafkaUsernameEnvVarKey : string;
  KafkaPasswordEnvVarKey : string;
  (* health *)
  LivenessPath : string;
  ReadinessPath : string;
  (* logging *)
  ConfigMapName : string;
  (* util *)
  DispatcherDnsSafeName : kafkav1beta1.KafkaChannel -> string;
  TopicName : kafkav1beta1.KafkaChannel -> string;
  ChannelKey : kafkav1beta1.KafkaChannel -> string;
  NewChannelOwnerReference : kafkav1beta1.KafkaChannel -> metav1.OwnerReference;
  (* labels *)
  validateLabelKey : string -> bool;
  validateLabelValue : string -> string -> bool;
  (* kafkav1beta1 *)
  PropagateDispatcherStatus :
    appsv1.DeploymentStatus -> kafkav1beta1.KafkaChannelStatus -> kafkav1beta1.KafkaChannelStatus
}.

(** ** knative.dev/eventing-kafka/pkg/channel/distributed/controller/event *)

Module event.

Inductive CoreEvent :=
| DispatcherServiceReconciliationFailed
| DispatcherDeploymentReconciliationFailed.

(** Modelled from the spec: the reason code of an event is its name in the
    closed enumeration of reasons. *)
Definition String (e : CoreEvent) : string :=
  match e with
  | DispatcherServiceReconciliationFailed => "DispatcherServiceReconciliationFailed"
  | DispatcherDeploymentReconciliationFailed => "DispatcherDeploymentReconciliationFailed"
  end.

End event.

(** ** Collaborator calls and their history *)

(** One entry per call that reaches a collaborator, with what was asked
    and what was answered. *)
Inductive Event :=
| KafkaChannelsList (selector : labels.Selector)
    (answer : error + list (option kafkav1beta1.KafkaChannel))
| KafkaChannelsGet (namespace name : string)
    (answer : error + kafkav1beta1.KafkaChannel)
| KafkaChannelsUpdateStatus (namespace : string) (channel : kafkav1beta1.KafkaChannel)
    (answer : option error)
| ServicesGet (namespace name : string) (answer : error + corev1.Service)
| ServicesCreate (namespace : string) (service : corev1.Service)
    (answer : error + corev1.Service)
| DeploymentsGet (namespace name : string) (answer : error + appsv1.Deployment)
| DeploymentsCreate (namespace : string) (deployment : appsv1.Deployment)
    (answer : error + appsv1.Deployment)
| RecorderEventf (channel : kafkav1beta1.KafkaChannel) (eventtype : corev1.EventType)
    (reason message : string).

Definition History := list Event.

(** A computation reads the history and extends it. *)
Definition M (A : Type) : Type := History -> A * History.

Definition ret {A} (a : A) : M A := fun h => (a, h).

Definition bind {A B} (m : M A) (k : A -> M B) : M B :=
  fun h => let (a, h') := m h in k a h'.

Declare Scope go_scope.
Delimit Scope go_scope with go.
Notation "'do' x <- m ; k" := (bind m (fun x => k))
  (at level 10, x name, m at level 100, k at level 200) : go_scope.
Notation "'do' ' pat <- m ; k" := (bind m (fun x => match x with pat => k end))
  (at level 10, pat pattern, m at level 100, k at level 200) : go_scope.

(** Ask a collaborator: compute the answer from the history, record it. *)
Definition call {A} (answer : History -> A) (entry : A -> Event) : M A :=
  fun h => let a := answer h in (a, h ++ [entry a]).

(** What a run from history [h] appended to it. *)
Definition appended {A} (m : M A) (h : History) : History :=
  drop (length h) (snd (m h)).


Local Open Scope go_scope.

(** ** knative.dev/pkg/reconciler and k8s.io/client-go/util/retry *)

Module reconciler.

(** [retry.DefaultRetry] allows five steps. *)
Definition DefaultRetrySteps : nat := 5.

(** [RetryErrors] over [retry.OnError] and [wait.ExponentialBackoff]: the
    updater is called with the number of attempts made so far; a nil
    result ends the loop, an error the predicate accepts is remembered
    and the next step is taken, any other error is returned at once;
    when the steps run out the last remembered error is returned.  The
    variables the closure captures and assigns are the state [S].  The
    pauses between steps are not modelled. *)
Fixpoint RetryErrors {S : Type} (steps : nat) (retriable : error -> bool)
    (updater : nat -> S -> M (option error * S))
    (attempts : nat) (captured : S) (lastErr : option error) : M (option error) :=
  match steps with
  | O => ret lastErr
  | Datatypes.S steps' =>
      do ' (err, captured') <- updater attempts captured;
      match err with
      | None => ret None
      | Some e =>
          if retriable e
          then RetryErrors steps' retriable updater (Datatypes.S attempts) captured' (Some e)
          else ret (Some e)
      end
  end.

Definition RetryUpdateConflicts {S : Type}
    (updater : nat -> S -> M (option error * S)) (captured : S) : M (option error) :=
  RetryErrors DefaultRetrySteps errors.IsConflict updater 0%nat captured None.

End reconciler.

(** ** package kafkasecret *)

Module kafkasecret.

Import kafkav1beta1.

(** The lister reads the informer's cache, whose content changes with
    time.  [List] answers the cached channels of all namespaces: every one
    of them when the selector is empty, else the ones the selector
    matches.  [Get] answers the cached channel of that namespace and name,
    or NotFound.  [List] can also be made to fail, since the source
    handles that error. *)
Record KafkaChannelLister := {
  indexer : History -> list KafkaChannel;
  listFailure : History -> option error
}.

(** The clientset: whether an [UpdateStatus] is accepted is the API
    server's decision. *)
Record KafkaChannelClient := {
  updateStatus : History -> string -> KafkaChannel -> option error
}.

Record Reconciler := {
  kafkachannelLister : KafkaChannelLister;
  kafkaChannelClient : KafkaChannelClient
}.

Definition List (l : KafkaChannelLister) (selector : labels.Selector)
  : M (error + list (option KafkaChannel)) :=
  call (fun h =>
          match listFailure l h with
          | Some e => inl e
          | None =>
              let selectAll := labels.Empty selector in
              inr (Some <$> List.filter
                     (fun kc =>
                        selectAll
                        || labels.Matches selector (metav1.Labels (ObjectMeta kc)))
                     (indexer l h))
          end)
       (KafkaChannelsList selector).

Definition Get (l : KafkaChannelLister) (namespace name : string)
  : M (error + KafkaChannel) :=
  call (fun h =>
          match List.find
                  (fun kc => String.eqb (Namespace kc) namespace && String.eqb (Name kc) name)
                  (indexer l h) with
          | Some kc => inr kc
          | None => inl (errors.NewNotFound "kafkachannel" name)
          end)
       (KafkaChannelsGet namespace name).

Definition UpdateStatus (c : KafkaChannelClient) (namespace : string) (channel : KafkaChannel)
  : M (option error) :=
  call (fun h => updateStatus c h namespace channel)
       (KafkaChannelsUpdateStatus namespace channel).

Section Reconcile.

Context (pkg : Imports) (r : Reconciler).

(** What one pass of the closure in [updateKafkaChannelStatus] makes of
    the copy it works on: the two leaves are marked as specified. *)
Definition markStatus
    (serviceValid : bool) (serviceReason serviceMessage : string)
    (deploymentValid : bool) (deploymentReason deploymentMessage : string)
    (originalChannel : KafkaChannel) : KafkaChannel :=
  let updatedChannel := DeepCopy originalChannel in
  let updatedChannel :=
    withStatus updatedChannel
      (if serviceValid
       then MarkServiceTrue (Status updatedChannel)
       else MarkServiceFailed serviceReason serviceMessage (Status updatedChannel)) in
  let updatedChannel :=
    withStatus updatedChannel
      (if deploymentValid
       then MarkEndpointsTrue (Status updatedChannel)
       else MarkEndpointsFailed deploymentReason deploymentMessage (Status updatedChannel)) in
  updatedChannel.

(** The closure handed to [RetryUpdateConflicts].  It captures and
    assigns [originalChannel], which is therefore threaded through.  A
    failed reload leaves the variable nil in Go; the error is NotFound,
    which is not retried, so the variable is not read again and the model
    keeps its old value. *)
Definition updateKafkaChannelStatus_attempt
    (serviceValid : bool) (serviceReason serviceMessage : string)
    (deploymentValid : bool) (deploymentReason deploymentMessage : string)
    (attempts : nat) (originalChannel : KafkaChannel)
  : M (option error * KafkaChannel) :=
  do ' (err, originalChannel) <-
    (if bool_decide (0 < attempts)%nat
     then
       do reloaded <- Get (kafkachannelLister r) (Namespace originalChannel) (Name originalChannel);
       match reloaded with
       | inl e => ret (Some e, originalChannel)
       | inr fresh => ret (None, fresh)
       end
     else ret (None, originalChannel));
  match err with
  | Some e => ret (Some e, originalChannel)
  | None =>
      let updatedChannel :=
        markStatus serviceValid serviceReason serviceMessage
                   deploymentValid deploymentReason deploymentMessage originalChannel in
      if negb (equality.DeepEqual (Status originalChannel) (Status updatedChannel))
      then
        do err <- UpdateStatus (kafkaChannelClient r) (Namespace updatedChannel) updatedChannel;
        match err with
        | Some e => ret (Some e, originalChannel)
        | None => ret (None, originalChannel)
        end
      else ret (None, originalChannel)
  end.

Definition updateKafkaChannelStatus
    (originalChannel : KafkaChannel)
    (serviceValid : bool) (serviceReason serviceMessage : string)
    (deploymentValid : bool) (deploymentReason deploymentMessage : string)
  : M (option error) :=
  reconciler.RetryUpdateConflicts
    (updateKafkaChannelStatus_attempt serviceValid serviceReason serviceMessage
                                      deploymentValid deploymentReason deploymentMessage)
    originalChannel.

(** The [for ... range kafkaChannels] loop, with its flag. *)
Fixpoint updateLoop
    (kafkaChannels : list (option KafkaChannel)) (statusUpdateErrors : bool)
    (serviceValid : bool) (serviceReason serviceMessage : string)
    (deploymentValid : bool) (deploymentReason deploymentMessage : string)
  : M bool :=
  match kafkaChannels with
  | [] => ret statusUpdateErrors
  | kafkaChannel :: rest =>
      match kafkaChannel with
      | Some kc =>
          do err <- updateKafkaChannelStatus kc serviceValid serviceReason serviceMessage
                      deploymentValid deploymentReason deploymentMessage;
          match err with
          | Some _ =>
              updateLoop rest true serviceValid serviceReason serviceMessage
                         deploymentValid deploymentReason deploymentMessage
          | None =>
              updateLoop rest statusUpdateErrors serviceValid serviceReason serviceMessage
                         deploymentValid deploymentReason deploymentMessage
          end
      | None =>
          updateLoop rest statusUpdateErrors serviceValid serviceReason serviceMessage
                     deploymentValid deploymentReason deploymentMessage
      end
  end.

Definition reconcileKafkaChannelStatus
    (secret : corev1.Secret)
    (serviceValid : bool) (serviceReason serviceMessage : string)
    (deploymentValid : bool) (deploymentReason deploymentMessage : string)
  : M (option error) :=
  let selector := labels.NewSelector in
  match labels.NewRequirement (validateLabelKey pkg) (validateLabelValue pkg)
          (KafkaSecretLabel pkg) labels.Equals
          [metav1.Name (corev1.Secret_ObjectMeta secret)] with
  | inl err => ret (Some err)
  | inr requirement =>
      (* the statement [selector.Add] of the requirement: the selector that
         Add returns is dropped, [selector] itself stays as it was *)
      let _ := labels.Add selector [requirement] in
      do listed <- List (kafkachannelLister r) selector;
      match listed with
      | inl err => ret (Some err)
      | inr kafkaChannels =>
          do statusUpdateErrors <-
            updateLoop kafkaChannels false serviceValid serviceReason serviceMessage
                       deploymentValid deploymentReason deploymentMessage;
          if statusUpdateErrors
          then ret (Some (errors.Errorf "failed to update Status of one or more KafkaChannels"))
          else ret None
      end
  end.

End Reconcile.

End kafkasecret.

(** ** package kafkachannel *)

Module kafkachannel.

Import kafkav1beta1.

Record ServiceLister := {
  getService : History -> string -> string -> error + corev1.Service
}.

Record DeploymentLister := {
  getDeployment : History -> string -> string -> error + appsv1.Deployment
}.

Record Clientset := {
  createService : History -> string -> corev1.Service -> error + corev1.Service;
  createDeployment : History -> string -> appsv1.Deployment -> error + appsv1.Deployment
}.

Record AdminClient := {
  GetKafkaSecretName : string -> string
}.

Record Environment := {
  ServiceAccount : string;
  MetricsPort : Z;
  MetricsDomain : string;
  DispatcherImage : string
}.

Record DispatcherConfig := {
  Replicas : Z;
  MemoryLimit : string;
  CpuLimit : string;
  MemoryRequest : string;
  CpuRequest : string
}.

Record Reconciler := {
  kubeClientset : Clientset;
  adminClient : AdminClient;
  environment : Environment;
  config : DispatcherConfig;
  deploymentLister : DeploymentLister;
  serviceLister : ServiceLister
}.

Definition Services_Get (l : ServiceLister) (namespace name : string)
  : M (error + corev1.Service) :=
  call (fun h => getService l h namespace name) (ServicesGet namespace name).

Definition Services_Create (c : Clientset) (namespace : string) (service : corev1.Service)
  : M (error + corev1.Service) :=
  call (fun h => createService c h namespace service) (ServicesCreate namespace service).

Definition Deployments_Get (l : DeploymentLister) (namespace name : string)
  : M (error + appsv1.Deployment) :=
  call (fun h => getDeployment l h namespace name) (DeploymentsGet namespace name).

Definition Deployments_Create (c : Clientset) (namespace : string) (deployment : appsv1.Deployment)
  : M (error + appsv1.Deployment) :=
  call (fun h => createDeployment c h namespace deployment)
       (DeploymentsCreate namespace deployment).

(** [controller.GetEventRecorder(ctx).Eventf]. *)
Definition Eventf (channel : KafkaChannel) (eventtype : corev1.EventType)
    (reason message : string) : M unit :=
  fun h => (tt, h ++ [RecorderEventf channel eventtype reason message]).

Section Reconcile.

Context (pkg : Imports) (r : Reconciler).

(** *** The builder *)

Definition newDispatcherService (channel : KafkaChannel) : corev1.Service :=
  let serviceName := DispatcherDnsSafeName pkg channel in
  {| corev1.Service_TypeMeta :=
       {| corev1.APIVersion := "v1"; corev1.Kind := ServiceKind pkg |};
     corev1.Service_ObjectMeta :=
       {| metav1.Name := serviceName;
          metav1.Namespace := KnativeEventingNamespace pkg;
          metav1.ResourceVersion := EmptyString;
          metav1.Labels :=
            list_to_map
              [ (KafkaChannelDispatcherLabel pkg, "true");
                (KafkaChannelNameLabel pkg, Name channel);
                (KafkaChannelNamespaceLabel pkg, Namespace channel);
                (K8sAppDispatcherSelectorLabel pkg, K8sAppDispatcherSelectorValue pkg) ];
          metav1.OwnerReferences := [ NewChannelOwnerReference pkg channel ] |};
     corev1.Service_Spec :=
       {| corev1.Ports :=
            [ {| corev1.Port_Name := MetricsPortName pkg;
                 corev1.Port := int32 (MetricsPort (environment r));
                 corev1.TargetPort := intstr.FromInt (MetricsPort (environment r)) |} ];
          corev1.Selector := list_to_map [ (AppLabel pkg, serviceName) ] |} |}.

Definition secretKeyEnvVar (name kafkaSecret key : string) : corev1.EnvVar :=
  {| corev1.Name := name;
     corev1.Value := EmptyString;
     corev1.ValueFrom :=
       Some {| corev1.FieldRef := None;
               corev1.SecretKeyRef :=
                 Some {| corev1.LocalObjectReference := kafkaSecret;
                         corev1.Key := key |} |} |}.

Definition plainEnvVar (name value : string) : corev1.EnvVar :=
  {| corev1.Name := name; corev1.Value := value; corev1.ValueFrom := None |}.

(** Returns the pair Go returns: the slice (nil is the empty list) and the
    error. *)
Definition dispatcherDeploymentEnvVars (channel : KafkaChannel)
  : list corev1.EnvVar * option error :=
  let topicName := TopicName pkg channel in
  let envVars :=
    [ plainEnvVar (NamespaceEnvKey pkg) (KnativeEventingNamespace pkg);
      {| corev1.Name := PodNameEnvVarKey pkg;
         corev1.Value := EmptyString;
         corev1.ValueFrom :=
           Some {| corev1.FieldRef := Some {| corev1.FieldPath := "metadata.name" |};
                   corev1.SecretKeyRef := None |} |};
      plainEnvVar (ContainerNameEnvVarKEy pkg) (DispatcherContainerName pkg);
      plainEnvVar (KnativeLoggingConfigMapNameEnvVarKey pkg) (ConfigMapName pkg);
      plainEnvVar (MetricsPortEnvVarKey pkg) (Itoa (MetricsPort (environment r)));
      plainEnvVar (MetricsDomainEnvVarKey pkg) (MetricsDomain (environment r));
      plainEnvVar (HealthPortEnvVarKey pkg) (Itoa (HealthPort pkg));
      plainEnvVar (ChannelKeyEnvVarKey pkg) (ChannelKey pkg channel);
      plainEnvVar (ServiceNameEnvVarKey pkg) (DispatcherDnsSafeName pkg channel);
      plainEnvVar (KafkaTopicEnvVarKey pkg) topicName ] in
  let kafkaSecret := GetKafkaSecretName (adminClient r) topicName in
  if bool_decide (String.length kafkaSecret <= 0)%nat
  then ([], Some (errors.Errorf ("invalid kafkaSecret for topic '" +:+ topicName +:+ "'")))
  else
    let envVars :=
      envVars ++ [ secretKeyEnvVar (KafkaBrokerEnvVarKey pkg) kafkaSecret
                                   (KafkaSecretDataKeyBrokers pkg) ] in
    let envVars :=
      envVars ++ [ secretKeyEnvVar (KafkaUsernameEnvVarKey pkg) kafkaSecret
                                   (KafkaSecretDataKeyUsername pkg) ] in
    let envVars :=
      envVars ++ [ secretKeyEnvVar (KafkaPasswordEnvVarKey pkg) kafkaSecret
                                   (KafkaSecretDataKeyPassword pkg) ] in
    (envVars, None).

Definition healthProbe (path : string) (delay period : Z) : corev1.Probe :=
  {| corev1.HTTPGet :=
       Some {| corev1.HTTPGet_Port := intstr.FromInt (HealthPort pkg);
               corev1.HTTPGet_Path := path |};
     corev1.InitialDelaySeconds := delay;
     corev1.PeriodSeconds := period |}.

(** Returns the pair Go returns: the pointer (nil is [None]) and the error. *)
Definition newDispatcherDeployment (channel : KafkaChannel)
  : option appsv1.Deployment * option error :=
  let deploymentName := DispatcherDnsSafeName pkg channel in
  let replicas := int32 (Replicas (config r)) in
  let '(envVars, err) := dispatcherDeploymentEnvVars channel in
  match err with
  | Some e => (None, Some e)
  | None =>
      let deployment :=
        {| appsv1.TypeMeta :=
             {| corev1.APIVersion := "apps/v1"; corev1.Kind := DeploymentKind pkg |};
           appsv1.ObjectMeta :=
             {| metav1.Name := deploymentName;
                metav1.Namespace := KnativeEventingNamespace pkg;
                metav1.ResourceVersion := EmptyString;
                metav1.Labels :=
                  list_to_map
                    [ (AppLabel pkg, deploymentName);
                      (KafkaChannelDispatcherLabel pkg, "true");
                      (KafkaChannelNameLabel pkg, Name channel);
                      (KafkaChannelNamespaceLabel pkg, Namespace channel) ];
                metav1.OwnerReferences := [ NewChannelOwnerReference pkg channel ] |};
           appsv1.Spec :=
             {| appsv1.Replicas := Some replicas;
                appsv1.MatchLabels := list_to_map [ (AppLabel pkg, deploymentName) ];
                appsv1.Template :=
                  {| corev1.Template_Labels := list_to_map [ (AppLabel pkg, deploymentName) ];
                     corev1.Template_Spec :=
                       {| corev1.ServiceAccountName := ServiceAccount (environment r);
                          corev1.Containers :=
                            [ {| corev1.Container_Name := deploymentName;
                                 corev1.LivenessProbe :=
                                   Some (healthProbe (LivenessPath pkg)
                                           (DispatcherLivenessDelay pkg)
                                           (DispatcherLivenessPeriod pkg));
                                 corev1.ReadinessProbe :=
                                   Some (healthProbe (ReadinessPath pkg)
                                           (DispatcherReadinessDelay pkg)
                                           (DispatcherReadinessPeriod pkg));
                                 corev1.Image := DispatcherImage (environment r);
                                 corev1.Env := envVars;
                                 corev1.ImagePullPolicy := corev1.PullIfNotPresent;
                                 corev1.Resources :=
                                   {| corev1.Limits :=
                                        {| corev1.ResourceMemory := MemoryLimit (config r);
                                           corev1.ResourceCPU := CpuLimit (config r) |};
                                      corev1.Requests :=
                                        {| corev1.ResourceMemory := MemoryRequest (config r);
                                           corev1.ResourceCPU := CpuRequest (config r) |} |} |} ] |} |} |};
           appsv1.Status := appsv1.zeroStatus |} in
      (Some deployment, None)
  end.

(** *** The engine *)

Definition getDispatcherService (channel : KafkaChannel) : M (error + corev1.Service) :=
  let serviceName := DispatcherDnsSafeName pkg channel in
  Services_Get (serviceLister r) (KnativeEventingNamespace pkg) serviceName.

(** The channel is handed over by pointer; every reconciler answers the
    error together with the channel as it leaves it.  This one never
    writes through the pointer. *)
Definition reconcileDispatcherService (channel : KafkaChannel)
  : M (option error * KafkaChannel) :=
  do got <- getDispatcherService channel;
  match got with
  | inl err =>
      if errors.IsNotFound err
      then
        let service := newDispatcherService channel in
        do created <- Services_Create (kubeClientset r)
                        (metav1.Namespace (corev1.Service_ObjectMeta service)) service;
        match created with
        | inl err => ret (Some err, channel)
        | inr _ => ret (None, channel)
        end
      else ret (Some err, channel)
  | inr _ => ret (None, channel)
  end.

Definition getDispatcherDeployment (channel : KafkaChannel) : M (error + appsv1.Deployment) :=
  let deploymentName := DispatcherDnsSafeName pkg channel in
  Deployments_Get (deploymentLister r) (KnativeEventingNamespace pkg) deploymentName.

Definition reconcileDispatcherDeployment (channel : KafkaChannel)
  : M (option error * KafkaChannel) :=
  do got <- getDispatcherDeployment channel;
  match got with
  | inl err =>
      if errors.IsNotFound err
      then
        match newDispatcherDeployment channel with
        | (_, Some err) =>
            let channel :=
              withStatus channel
                (MarkDispatcherFailed
                   (event.String event.DispatcherDeploymentReconciliationFailed)
                   ("Failed To Generate Dispatcher Deployment: " +:+ errors.Error err)
                   (Status channel)) in
            ret (Some err, channel)
        | (None, None) =>
            (* not reached: the builder returns a deployment or an error *)
            ret (None, channel)
        | (Some deployment, None) =>
            do created <- Deployments_Create (kubeClientset r)
                            (metav1.Namespace (appsv1.ObjectMeta deployment)) deployment;
            match created with
            | inl err =>
                let channel :=
                  withStatus channel
                    (MarkDispatcherFailed
                       (event.String event.DispatcherDeploymentReconciliationFailed)
                       ("Failed To Create Dispatcher Deployment: " +:+ errors.Error err)
                       (Status channel)) in
                ret (Some err, channel)
            | inr deployment =>
                let channel :=
                  withStatus channel
                    (PropagateDispatcherStatus pkg (appsv1.Status deployment) (Status channel)) in
                ret (None, channel)
            end
        end
      else
        let channel :=
          withStatus channel
            (MarkDispatcherUnknown
               (event.String event.DispatcherDeploymentReconciliationFailed)
               ("Failed To Get Dispatcher Deployment: " +:+ errors.Error err)
               (Status channel)) in
        ret (Some err, channel)
  | inr deployment =>
      let channel :=
        withStatus channel
          (PropagateDispatcherStatus pkg (appsv1.Status deployment) (Status channel)) in
      ret (None, channel)
  end.

Definition reconcileDispatcher (channel : KafkaChannel) : M (option error * KafkaChannel) :=
  do ' (serviceErr, channel) <- reconcileDispatcherService channel;
  do _ <- match serviceErr with
          | Some err =>
              Eventf channel corev1.EventTypeWarning
                (event.String event.DispatcherServiceReconciliationFailed)
                ("Failed To Reconcile Dispatcher Service: " +:+ errors.Error err)
          | None => ret tt
          end;
  do ' (deploymentErr, channel) <- reconcileDispatcherDeployment channel;
  do _ <- match deploymentErr with
          | Some err =>
              Eventf channel corev1.EventTypeWarning
                (event.String event.DispatcherDeploymentReconciliationFailed)
                ("Failed To Reconcile Dispatcher Deployment: " +:+ errors.Error err)
          | None => ret tt
          end;
  if isErr serviceErr || isErr deploymentErr
  then ret (Some (errors.Errorf "failed to reconcile dispatcher resources"), channel)
  else ret (None, channel).

End Reconcile.

End kafkachannel.

(** ** Vocabulary of the properties *)

Definition isUpdateStatus (ev : Event) : bool :=
  match ev with KafkaChannelsUpdateStatus _ _ _ => true | _ => false end.

Definition isCreate (ev : Event) : bool :=
  match ev with
  | ServicesCreate _ _ _ | DeploymentsCreate _ _ _ => true
  | _ => false
  end.

(** The namespace a call to the object store is addressed to. *)
Definition storeNamespace (ev : Event) : option string :=
  match ev with
  | KafkaChannelsList _ _ => None
  | KafkaChannelsGet namespace _ _ => Some namespace
  | KafkaChannelsUpdateStatus namespace _ _ => Some namespace
  | ServicesGet namespace _ _ => Some namespace
  | ServicesCreate namespace _ _ => Some namespace
  | DeploymentsGet namespace _ _ => Some namespace
  | DeploymentsCreate namespace _ _ => Some namespace
  | RecorderEventf _ _ _ _ => None
  end.

Definition isKafkaChannelsGet (ev : Event) : bool :=
  match ev with KafkaChannelsGet _ _ _ => true | _ => false end.

Definition isRecorderEventf (ev : Event) : bool :=
  match ev with RecorderEventf _ _ _ _ => true | _ => false end.

(** The error, if any, a call was answered with. *)
Definition answerOf (ev : Event) : option error :=
  match ev with
  | KafkaChannelsList _ (inl e) => Some e
  | KafkaChannelsGet _ _ (inl e) => Some e
  | KafkaChannelsUpdateStatus _ _ answer => answer
  | ServicesGet _ _ (inl e) => Some e
  | ServicesCreate _ _ (inl e) => Some e
  | DeploymentsGet _ _ (inl e) => Some e
  | DeploymentsCreate _ _ (inl e) => Some e
  | _ => None
  end.

(** The answer to the last call of [evs], or [otherwise] when there is no
    call. *)
Definition lastAnswerOr (otherwise : option error) (evs : list Event) : option error :=
  match last evs with
  | Some ev => answerOf ev
  | None => otherwise
  end.

Section Shapes.

Import kafkav1beta1.

Context (mark : KafkaChannel -> KafkaChannel).

(** [Retried n stale evs]: the calls [evs] that follow a submission made
    from [stale] and answered with a conflict, when [n] steps are left.
    Every further submission is made from a copy just reloaded. *)
Inductive Retried : nat -> KafkaChannel -> list Event -> Prop :=
| retried_out stale :
    Retried 0 stale []
| retried_gone n stale e :
    Retried (S n) stale [KafkaChannelsGet (Namespace stale) (Name stale) (inl e)]
| retried_same n stale fresh :
    Status (mark fresh) = Status fresh ->
    Retried (S n) stale [KafkaChannelsGet (Namespace stale) (Name stale) (inr fresh)]
| retried_done n stale fresh answer :
    Status (mark fresh) <> Status fresh ->
    (forall e, answer = Some e -> errors.IsConflict e = false) ->
    Retried (S n) stale
      [KafkaChannelsGet (Namespace stale) (Name stale) (inr fresh);
       KafkaChannelsUpdateStatus (Namespace fresh) (mark fresh) answer]
| retried_again n stale fresh e rest :
    Status (mark fresh) <> Status fresh ->
    errors.IsConflict e = true ->
    Retried n fresh rest ->
    Retried (S n) stale
      (KafkaChannelsGet (Namespace stale) (Name stale) (inr fresh)
       :: KafkaChannelsUpdateStatus (Namespace fresh) (mark fresh) (Some e)
       :: rest).

(** [Submitted n original evs]: the calls of a whole status update that
    starts from [original] with [S n] steps allowed. *)
Inductive Submitted (n : nat) (original : KafkaChannel) : list Event -> Prop :=
| submitted_same :
    Status (mark original) = Status original ->
    Submitted n original []
| submitted_done answer :
    Status (mark original) <> Status original ->
    (forall e, answer = Some e -> errors.IsConflict e = false) ->
    Submitted n original
      [KafkaChannelsUpdateStatus (Namespace original) (mark original) answer]
| submitted_again e rest :
    Status (mark original) <> Status original ->
    errors.IsConflict e = true ->
    Retried n original rest ->
    Submitted n original
      (KafkaChannelsUpdateStatus (Namespace original) (mark original) (Some e) :: rest).

End Shapes.

(** Every channel of the list updated on its own, one after the other,
    with the outcome of each. *)
Fixpoint updateEach (update : kafkav1beta1.KafkaChannel -> M (option error))
    (channels : list kafkav1beta1.KafkaChannel) : M (list (option error)) :=
  match channels with
  | [] => ret []
  | kc :: rest =>
      do err <- update kc;
      do errs <- updateEach update rest;
      ret (err :: errs)
  end.

(** ** A sample installation

    Concrete values for the imported names and a small cluster, used to
    run the definitions. *)

Module sample.

Import kafkav1beta1.

Definition pkg : Imports :=
  {| KnativeEventingNamespace := "knative-eventing";
     KafkaSecretLabel := "kafkasecret";
     AppLabel := "app";
     KafkaChannelDispatcherLabel := "kafkachannel-dispatcher";
     KafkaChannelNameLabel := "kafkachannel-name";
     KafkaChannelNamespaceLabel := "kafkachannel-namespace";
     K8sAppDispatcherSelectorLabel := "k8s-app";
     K8sAppDispatcherSelectorValue := "eventing-kafka-dispatchers";
     ServiceKind := "Service";
     DeploymentKind := "Deployment";
     MetricsPortName := "metrics";
     HealthPort := 8082;
     DispatcherLivenessDelay := 10;
     DispatcherLivenessPeriod := 3;
     DispatcherReadinessDelay := 10;
     DispatcherReadinessPeriod := 3;
     DispatcherContainerName := "kafkachannel-dispatcher";
     KafkaSecretDataKeyBrokers := "brokers";
     KafkaSecretDataKeyUsername := "username";
     KafkaSecretDataKeyPassword := "password";
     NamespaceEnvKey := "SYSTEM_NAMESPACE";
     PodNameEnvVarKey := "POD_NAME";
     ContainerNameEnvVarKEy := "CONTAINER_NAME";
     KnativeLoggingConfigMapNameEnvVarKey := "CONFIG_LOGGING_NAME";
     MetricsPortEnvVarKey := "METRICS_PORT";
     MetricsDomainEnvVarKey := "METRICS_DOMAIN";
     HealthPortEnvVarKey := "HEALTH_PORT";
     ChannelKeyEnvVarKey := "CHANNEL_KEY";
     ServiceNameEnvVarKey := "SERVICE_NAME";
     KafkaTopicEnvVarKey := "KAFKA_TOPIC";
     KafkaBrokerEnvVarKey := "KAFKA_BROKERS";
     KafkaUsernameEnvVarKey := "KAFKA_USERNAME";
     KafkaPasswordEnvVarKey := "KAFKA_PASSWORD";
     LivenessPath := "/healthz";
     ReadinessPath := "/healthy";
     ConfigMapName := "config-logging";
     DispatcherDnsSafeName := fun kc => Name kc +:+ "-" +:+ Namespace kc +:+ "-dispatcher";
     TopicName := fun kc => Namespace kc +:+ "." +:+ Name kc;
     ChannelKey := fun kc => Namespace kc +:+ "/" +:+ Name kc;
     NewChannelOwnerReference := fun kc =>
       {| metav1.APIVersion := "messaging.knative.dev/v1beta1";
          metav1.Kind := "KafkaChannel";
          metav1.RefName := Name kc;
          metav1.BlockOwnerDeletion := true;
          metav1.Controller := true |};
     validateLabelKey := fun k => bool_decide (String.length k <= 63)%nat;
     validateLabelValue := fun _ v => bool_decide (String.length v <= 63)%nat;
     PropagateDispatcherStatus := fun ds cs =>
       if bool_decide (0 < appsv1.AvailableReplicas ds)%Z
       then {| Service := Service cs; Endpoints := Endpoints cs; Dispatcher := Some markTrue |}
       else MarkDispatcherUnknown "DispatcherDeploymentUnknown"
              "The dispatcher deployment has no available replica" cs |}.

Definition noConditions : KafkaChannelStatus :=
  {| Service := None; Endpoints := None; Dispatcher := None |}.

Definition channel (namespace name version secret : string) (cs : KafkaChannelStatus)
  : KafkaChannel :=
  {| ObjectMeta :=
       {| metav1.Name := name;
          metav1.Namespace := namespace;
          metav1.ResourceVersion := version;
          metav1.Labels := {[ KafkaSecretLabel pkg := secret ]};
          metav1.OwnerReferences := [] |};
     Status := cs |}.

Definition chanA : KafkaChannel := channel "ns1" "chan-a" "1" "secret-a" noConditions.
Definition chanB : KafkaChannel := channel "ns2" "chan-b" "1" "secret-b" noConditions.

(** [chan-a] as another writer has left it in the meantime. *)
Definition chanA2 : KafkaChannel :=
  channel "ns1" "chan-a" "2" "secret-a"
    {| Service := None; Endpoints := None; Dispatcher := Some markTrue |}.

(** [chan-a] with both leaves of the aggregator already True. *)
Definition settled : KafkaChannel :=
  channel "ns1" "chan-a" "3" "secret-a"
    {| Service := Some markTrue; Endpoints := Some markTrue; Dispatcher := None |}.

(** [chan-a] with the Service leaf marked failed by an earlier pass. *)
Definition troubled : KafkaChannel :=
  channel "ns1" "chan-a" "4" "secret-a"
    {| Service := Some (markFalse "ReceiverServiceFailed" "receiver service is missing");
       Endpoints := Some markTrue;
       Dispatcher := None |}.

Definition secretA : corev1.Secret :=
  {| corev1.Secret_ObjectMeta :=
       {| metav1.Name := "secret-a";
          metav1.Namespace := "knative-eventing";
          metav1.ResourceVersion := "7";
          metav1.Labels := ∅;
          metav1.OwnerReferences := [] |};
     corev1.Data := ∅ |}.

Definition conflict : error :=
  errors.StatusError errors.StatusReasonConflict "the object has been modified".
Definition unavailable : error :=
  errors.StatusError errors.StatusReasonInternalError "etcd unavailable".
Definition notFound : error :=
  errors.StatusError errors.StatusReasonNotFound "not found".

(** A cluster that caches [chan-a] and [chan-b] and accepts every update. *)
Definition calm : kafkasecret.Reconciler :=
  {| kafkasecret.kafkachannelLister :=
       {| kafkasecret.indexer := fun _ => [chanA; chanB];
          kafkasecret.listFailure := fun _ => None |};
     kafkasecret.kafkaChannelClient :=
       {| kafkasecret.updateStatus := fun _ _ _ => None |} |}.

(** A cluster where another writer got in first: the first update of
    [chan-a] conflicts, the cache then holds the other writer's version. *)
Definition contended : kafkasecret.Reconciler :=
  {| kafkasecret.kafkachannelLister :=
       {| kafkasecret.indexer := fun h =>
            if existsb isUpdateStatus h then [chanA2; chanB] else [chanA; chanB];
          kafkasecret.listFailure := fun _ => None |};
     kafkasecret.kafkaChannelClient :=
       {| kafkasecret.updateStatus := fun h _ kc =>
            if String.eqb (metav1.ResourceVersion (ObjectMeta kc)) "1"
               && String.eqb (Name kc) "chan-a"
            then Some conflict else None |} |}.

(** A cluster that rejects every update of [chan-a] as a conflict and
    accepts the others. *)
Definition stubborn : kafkasecret.Reconciler :=
  {| kafkasecret.kafkachannelLister :=
       {| kafkasecret.indexer := fun _ => [chanA; chanB];
          kafkasecret.listFailure := fun _ => None |};
     kafkasecret.kafkaChannelClient :=
       {| kafkasecret.updateStatus := fun _ _ kc =>
            if String.eqb (Name kc) "chan-a" then Some conflict else None |} |}.

(** The engine's side: a reconciler with the sample configuration, over
    listers and a clientset given by what they answer. *)
Definition engine
    (secretOf : string -> string)
    (services : string -> string -> error + corev1.Service)
    (deployments : string -> string -> error + appsv1.Deployment)
    (scaled : appsv1.Deployment -> error + appsv1.Deployment)
  : kafkachannel.Reconciler :=
  {| kafkachannel.kubeClientset :=
       {| kafkachannel.createService := fun _ _ service => inr service;
          kafkachannel.createDeployment := fun _ _ deployment => scaled deployment |};
     kafkachannel.adminClient := {| kafkachannel.GetKafkaSecretName := secretOf |};
     kafkachannel.environment :=
       {| kafkachannel.ServiceAccount := "eventing-kafka-channel-controller";
          kafkachannel.MetricsPort := 8081;
          kafkachannel.MetricsDomain := "eventing-kafka";
          kafkachannel.DispatcherImage := "dispatcher:latest" |};
     kafkachannel.config :=
       {| kafkachannel.Replicas := 1;
          kafkachannel.MemoryLimit := "128Mi";
          kafkachannel.CpuLimit := "500m";
          kafkachannel.MemoryRequest := "50Mi";
          kafkachannel.CpuRequest := "300m" |};
     kafkachannel.deploymentLister :=
       {| kafkachannel.getDeployment := fun _ => deployments |};
     kafkachannel.serviceLister :=
       {| kafkachannel.getService := fun _ => services |} |}.

Definition bound (topic : string) : string :=
  if String.eqb topic "ns1.chan-a" then "kafka-secret-ns1-chan-a" else EmptyString.


Definition absent {A} (namespace name : string) : error + A := inl notFound.

Definition down {A} (namespace name : string) : error + A := inl unavailable.

(** A dispatcher service and a dispatcher deployment as they stand in the
    cluster once created, the deployment with one available replica. *)
Definition liveService : corev1.Service :=
  kafkachannel.newDispatcherService pkg (engine bound absent absent inr) chanA.

Definition liveDeployment : appsv1.Deployment :=
  {| appsv1.TypeMeta := {| corev1.APIVersion := "apps/v1"; corev1.Kind := "Deployment" |};
     appsv1.ObjectMeta :=
       {| metav1.Name := "chan-a-ns1-dispatcher";
          metav1.Namespace := "knative-eventing";
          metav1.ResourceVersion := "12";
          metav1.Labels := {[ "app" := "chan-a-ns1-dispatcher" ]};
          metav1.OwnerReferences := [] |};
     appsv1.Spec :=
       {| appsv1.Replicas := Some 1%Z;
          appsv1.MatchLabels := {[ "app" := "chan-a-ns1-dispatcher" ]};
          appsv1.Template :=
            {| corev1.Template_Labels := {[ "app" := "chan-a-ns1-dispatcher" ]};
               corev1.Template_Spec :=
                 {| corev1.ServiceAccountName := "eventing-kafka-channel-controller";
                    corev1.Containers := [] |} |} |};
     appsv1.Status :=
       {| appsv1.Status_Replicas := 1; appsv1.UpdatedReplicas := 1;
          appsv1.ReadyReplicas := 1; appsv1.AvailableReplicas := 1;
          appsv1.UnavailableReplicas := 0; appsv1.Conditions := [] |} |}.

Definition present {A} (a : A) (namespace name : string) : error + A := inr a.

(** Nothing exists yet and the secret is bound. *)
Definition firstPass : kafkachannel.Reconciler := engine bound absent absent inr.


(** Both listers fail with an error other than NotFound. *)
Definition outage : kafkachannel.Reconciler := engine bound down down inr.

(** Service and deployment exist. *)
Definition steady : kafkachannel.Reconciler :=
  engine bound (present liveService) (present liveDeployment) inr.


(** The service lister is down and the deployment cannot be created. *)
Definition failing : kafkachannel.Reconciler :=
  engine bound down absent (fun _ => inl unavailable).

(** A cluster whose lister cannot list. *)
Definition listDown : kafkasecret.Reconciler :=
  {| kafkasecret.kafkachannelLister :=
       {| kafkasecret.indexer := fun _ => [chanA; chanB];
          kafkasecret.listFailure := fun _ => Some unavailable |};
     kafkasecret.kafkaChannelClient :=
       {| kafkasecret.updateStatus := fun _ _ _ => None |} |}.

(** A cluster whose one cached channel is up to date. *)
Definition quiet : kafkasecret.Reconciler :=
  {| kafkasecret.kafkachannelLister :=
       {| kafkasecret.indexer := fun _ => [settled];
          kafkasecret.listFailure := fun _ => None |};
     kafkasecret.kafkaChannelClient :=
       {| kafkasecret.updateStatus := fun _ _ _ => Some unavailable |} |}.

(** A secret whose name, at 64 characters, is no valid label value. *)
Definition longSecret : corev1.Secret :=
  {| corev1.Secret_ObjectMeta :=
       {| metav1.Name := "kafka-secret-0123456789-0123456789-0123456789-0123456789-01234567";
          metav1.Namespace := "knative-eventing";
          metav1.ResourceVersion := "9";
          metav1.Labels := ∅;
          metav1.OwnerReferences := [] |};
     corev1.Data := ∅ |}.

(** The service exists, the deployment does not and cannot be created. *)
Definition halfway : kafkachannel.Reconciler :=
  engine bound (present liveService) absent (fun _ => inl unavailable).

(** Nothing exists and the store accepts no creation. *)
Definition readOnly : kafkachannel.Reconciler :=
  {| kafkachannel.kubeClientset :=
       {| kafkachannel.createService := fun _ _ _ => inl unavailable;
          kafkachannel.createDeployment := fun _ _ _ => inl unavailable |};
     kafkachannel.adminClient := kafkachannel.adminClient (engine bound absent absent inr);
     kafkachannel.environment := kafkachannel.environment (engine bound absent absent inr);
     kafkachannel.config := kafkachannel.config (engine bound absent absent inr);
     kafkachannel.deploymentLister :=
       kafkachannel.deploymentLister (engine bound absent absent inr);
     kafkachannel.serviceLister :=
       kafkachannel.serviceLister (engine bound absent absent inr) |}.

(** The deployment the builder makes for [chan-a]. *)
Definition dispatcherOfA : appsv1.Deployment :=
  default liveDeployment
    (fst (kafkachannel.newDispatcherDeployment pkg (engine bound absent absent inr) chanA)).

(** What a pass that finds service and deployment valid makes of a channel. *)
Definition marked (kc : KafkaChannel) : KafkaChannel :=
  kafkasecret.markStatus true EmptyString EmptyString true EmptyString EmptyString kc.

Definition update (r : kafkasecret.Reconciler) (kc : KafkaChannel) : M (option error) :=
  kafkasecret.updateKafkaChannelStatus r kc
    true EmptyString EmptyString true EmptyString EmptyString.

Definition reconcileStatus (r : kafkasecret.Reconciler) : M (option error) :=
  kafkasecret.reconcileKafkaChannelStatus pkg r secretA
    true EmptyString EmptyString true EmptyString EmptyString.

End sample.

(** * Properties *)

Import kafkav1beta1.

(** ** The monad *)

Lemma call_run {A} (answer : History -> A) (entry : A -> Event) (h : History) :
  call answer entry h = (answer h, h ++ [entry (answer h)]).
Proof. reflexivity. Qed.

Lemma appended_app {A} (m : M A) (h evs : History) (a : A) :
  m h = (a, h ++ evs) -> appended m h = evs.
Proof.
  intros Hrun. unfold appended. rewrite Hrun. simpl.
  by rewrite drop_app_length.
Qed.

(** ** What the two shapes say about a run *)

Section ShapeFacts.

Import kafkav1beta1.

Context (mark : KafkaChannel -> KafkaChannel).
Context (mark_meta : forall kc, ObjectMeta (mark kc) = ObjectMeta kc).

Lemma Retried_head n stale evs ev :
  Retried mark n stale evs -> evs !! 0%nat = Some ev ->
  exists reloaded, ev = KafkaChannelsGet (Namespace stale) (Name stale) reloaded.
Proof. destruct 1; intros [= <-]; eauto. Qed.

Lemma Retried_bounded n stale evs :
  Retried mark n stale evs -> (length (List.filter isUpdateStatus evs) <= n)%nat.
Proof. induction 1; cbn; lia. Qed.

Lemma Retried_from_fresh n stale evs i ns ch answer :
  Retried mark n stale evs ->
  evs !! i = Some (KafkaChannelsUpdateStatus ns ch answer) ->
  exists j ns' name' fresh,
    i = S j
    /\ evs !! j = Some (KafkaChannelsGet ns' name' (inr fresh))
    /\ ch = mark fresh
    /\ Status ch <> Status fresh.
Proof.
  intros Hshape. revert i. induction Hshape as [| | |n stale fresh a Hne Ha|n stale fresh e rest Hne He Hrest IH];
    intros i Hi.
  - destruct i; discriminate.
  - destruct i as [|[|i]]; discriminate.
  - destruct i as [|[|i]]; discriminate.
  - destruct i as [|[|[|i]]]; try discriminate.
    injection Hi as <- <- <-.
    exists 0%nat, (Namespace stale), (Name stale), fresh. by split_and!.
  - destruct i as [|[|i]]; try discriminate.
    + injection Hi as <- <- <-.
      exists 0%nat, (Namespace stale), (Name stale), fresh. by split_and!.
    + destruct (IH i Hi) as (j & ns' & name' & fresh' & -> & Hj & -> & Hd).
      exists (S (S j)), ns', name', fresh'. by split_and!.
Qed.

Lemma Retried_unchanged_stops n stale evs i ns name fresh :
  Retried mark n stale evs ->
  evs !! i = Some (KafkaChannelsGet ns name (inr fresh)) ->
  Status (mark fresh) = Status fresh ->
  evs !! S i = None.
Proof.
  intros Hshape. revert i. induction Hshape as [| | |n stale fresh' a Hne Ha|n stale fresh' e rest Hne He Hrest IH];
    intros i Hi Hsame.
  - destruct i; discriminate.
  - destruct i as [|[|i]]; discriminate.
  - destruct i as [|[|i]]; reflexivity || discriminate.
  - destruct i as [|[|[|i]]]; try discriminate.
    injection Hi as _ _ <-. contradiction.
  - destruct i as [|[|i]]; try discriminate.
    + injection Hi as _ _ <-. contradiction.
    + exact (IH i Hi Hsame).
Qed.

Lemma Retried_reload_follows n stale evs i ns ch answer ev :
  Retried mark n stale evs ->
  evs !! i = Some (KafkaChannelsUpdateStatus ns ch answer) ->
  evs !! S i = Some ev ->
  (exists e, answer = Some e /\ errors.IsConflict e = true)
  /\ exists reloaded, ev = KafkaChannelsGet (Namespace ch) (Name ch) reloaded.
Proof.
  intros Hshape. revert i. induction Hshape as [| | |n stale fresh a Hne Ha|n stale fresh e rest Hne He Hrest IH];
    intros i Hi Hnext.
  - destruct i; discriminate.
  - destruct i as [|[|i]]; discriminate.
  - destruct i as [|[|i]]; discriminate.
  - destruct i as [|[|[|i]]]; discriminate.
  - destruct i as [|[|i]]; try discriminate.
    + injection Hi as <- <- <-. split; [eauto|].
      destruct (Retried_head _ _ _ _ Hrest Hnext) as [reloaded ->].
      exists reloaded. unfold Namespace, Name. by rewrite mark_meta.
    + exact (IH i Hi Hnext).
Qed.

Lemma Retried_exhausted n stale evs ns ch e :
  Retried mark n stale evs ->
  last evs = Some (KafkaChannelsUpdateStatus ns ch (Some e)) ->
  errors.IsConflict e = true ->
  length (List.filter isUpdateStatus evs) = n.
Proof.
  induction 1 as [| | |n stale fresh a Hne Ha|n stale fresh e' rest Hne He Hrest IH];
    intros Hlast Hc; try discriminate.
  - injection Hlast as _ _ ->. rewrite (Ha e eq_refl) in Hc. discriminate.
  - cbn. f_equal. destruct rest as [|ev rest].
    + by inversion Hrest.
    + apply IH; [|exact Hc]. exact Hlast.
Qed.

Lemma Submitted_bounded n original evs :
  Submitted mark n original evs -> (length (List.filter isUpdateStatus evs) <= S n)%nat.
Proof.
  destruct 1 as [| |e rest Hne He Hrest]; cbn; try lia.
  pose proof (Retried_bounded _ _ _ Hrest). lia.
Qed.

Lemma Submitted_first n original evs ns ch answer :
  Submitted mark n original evs ->
  evs !! 0%nat = Some (KafkaChannelsUpdateStatus ns ch answer) ->
  ch = mark original /\ Status ch <> Status original.
Proof. destruct 1; intros [= <- <- <-]; auto. Qed.

Lemma Submitted_from_fresh n original evs i ns ch answer :
  Submitted mark n original evs ->
  evs !! S i = Some (KafkaChannelsUpdateStatus ns ch answer) ->
  exists ns' name' fresh,
    evs !! i = Some (KafkaChannelsGet ns' name' (inr fresh))
    /\ ch = mark fresh
    /\ Status ch <> Status fresh.
Proof.
  destruct 1 as [| |e rest Hne He Hrest]; intros Hi; try (destruct i; discriminate).
  destruct (Retried_from_fresh _ _ _ _ _ _ _ Hrest Hi)
    as (j & ns' & name' & fresh & -> & Hj & -> & Hd).
  exists ns', name', fresh. by split_and!.
Qed.

Lemma Submitted_unchanged_stops n original evs i ns name fresh :
  Submitted mark n original evs ->
  evs !! i = Some (KafkaChannelsGet ns name (inr fresh)) ->
  Status (mark fresh) = Status fresh ->
  evs !! S i = None.
Proof.
  destruct 1 as [| |e rest Hne He Hrest]; intros Hi Hsame;
    try (destruct i as [|[|i]]; discriminate).
  destruct i as [|i]; [discriminate|].
  exact (Retried_unchanged_stops _ _ _ _ _ _ _ Hrest Hi Hsame).
Qed.

Lemma Submitted_reload_follows n original evs i ns ch answer ev :
  Submitted mark n original evs ->
  evs !! i = Some (KafkaChannelsUpdateStatus ns ch answer) ->
  evs !! S i = Some ev ->
  (exists e, answer = Some e /\ errors.IsConflict e = true)
  /\ exists reloaded, ev = KafkaChannelsGet (Namespace ch) (Name ch) reloaded.
Proof.
  destruct 1 as [| |e rest Hne He Hrest]; intros Hi Hnext;
    try (destruct i as [|[|i]]; discriminate).
  destruct i as [|i].
  - injection Hi as <- <- <-. split; [eauto|].
    destruct (Retried_head _ _ _ _ Hrest Hnext) as [reloaded ->].
    exists reloaded. unfold Namespace, Name. by rewrite mark_meta.
  - exact (Retried_reload_follows _ _ _ _ _ _ _ _ Hrest Hi Hnext).
Qed.

Lemma Submitted_exhausted n original evs ns ch e :
  Submitted mark n original evs ->
  last evs = Some (KafkaChannelsUpdateStatus ns ch (Some e)) ->
  errors.IsConflict e = true ->
  length (List.filter isUpdateStatus evs) = S n.
Proof.
  destruct 1 as [|a Hne Ha|e' rest Hne He Hrest]; intros Hlast Hc; try discriminate.
  - injection Hlast as _ _ ->. rewrite (Ha e eq_refl) in Hc. discriminate.
  - cbn. f_equal. destruct rest as [|ev rest].
    + by inversion Hrest.
    + exact (Retried_exhausted _ _ _ _ _ _ Hrest Hlast Hc).
Qed.

Lemma Retried_differs_submits n stale evs i ns name fresh :
  Retried mark n stale evs ->
  evs !! i = Some (KafkaChannelsGet ns name (inr fresh)) ->
  Status (mark fresh) <> Status fresh ->
  exists answer,
    evs !! S i = Some (KafkaChannelsUpdateStatus (Namespace fresh) (mark fresh) answer).
Proof.
  intros Hshape. revert i.
  induction Hshape as [| |n stale fresh' Hsame|n stale fresh' a Hne Ha
                       |n stale fresh' e rest Hne He Hrest IH];
    intros i Hi Hdiffers.
  - destruct i; discriminate.
  - destruct i as [|[|i]]; discriminate.
  - destruct i as [|[|i]]; try discriminate. injection Hi as _ _ <-. contradiction.
  - destruct i as [|[|[|i]]]; try discriminate. injection Hi as _ _ <-. by exists a.
  - destruct i as [|[|i]]; try discriminate.
    + injection Hi as _ _ <-. by exists (Some e).
    + exact (IH i Hi Hdiffers).
Qed.

Lemma Submitted_differs_submits n original evs i ns name fresh :
  Submitted mark n original evs ->
  evs !! i = Some (KafkaChannelsGet ns name (inr fresh)) ->
  Status (mark fresh) <> Status fresh ->
  exists answer,
    evs !! S i = Some (KafkaChannelsUpdateStatus (Namespace fresh) (mark fresh) answer).
Proof.
  destruct 1 as [| |e rest Hne He Hrest]; intros Hi Hdiffers;
    try (destruct i as [|[|i]]; discriminate).
  destruct i as [|i]; [discriminate|].
  exact (Retried_differs_submits _ _ _ _ _ _ _ Hrest Hi Hdiffers).
Qed.

Lemma Submitted_first_submits n original evs :
  Submitted mark n original evs ->
  Status (mark original) <> Status original ->
  exists answer,
    evs !! 0%nat
    = Some (KafkaChannelsUpdateStatus (Namespace original) (mark original) answer).
Proof. destruct 1; intros Hdiffers; [contradiction|by eexists|by eexists]. Qed.

End ShapeFacts.

(** ** The Status Aggregator *)

Section Aggregator.

Import kafkav1beta1.

Context (pkg : Imports) (r : kafkasecret.Reconciler).
Context (serviceValid : bool) (serviceReason serviceMessage : string).
Context (deploymentValid : bool) (deploymentReason deploymentMessage : string).

Local Abbreviation mark :=
  (kafkasecret.markStatus serviceValid serviceReason serviceMessage
                          deploymentValid deploymentReason deploymentMessage).
Local Abbreviation attempt :=
  (kafkasecret.updateKafkaChannelStatus_attempt r
     serviceValid serviceReason serviceMessage
     deploymentValid deploymentReason deploymentMessage).
Local Abbreviation update kc :=
  (kafkasecret.updateKafkaChannelStatus r kc
     serviceValid serviceReason serviceMessage
     deploymentValid deploymentReason deploymentMessage).

Lemma mark_ObjectMeta (kc : KafkaChannel) : ObjectMeta (mark kc) = ObjectMeta kc.
Proof. reflexivity. Qed.

Lemma mark_Namespace (kc : KafkaChannel) : Namespace (mark kc) = Namespace kc.
Proof. reflexivity. Qed.

(** The first pass of the closure: no reload; one update call when the
    marked status differs, none otherwise. *)
Lemma attempt_first (original : KafkaChannel) (h : History) :
  attempt 0%nat original h =
    if decide (Status original = Status (mark original))
    then ((None, original), h)
    else
      let answer :=
        kafkasecret.updateStatus (kafkasecret.kafkaChannelClient r) h
          (Namespace original) (mark original) in
      ((answer, original),
       h ++ [KafkaChannelsUpdateStatus (Namespace original) (mark original) answer]).
Proof.
  unfold kafkasecret.updateKafkaChannelStatus_attempt, bind, ret, equality.DeepEqual.
  rewrite bool_decide_eq_false_2 by lia. cbv beta iota.
  destruct (decide (Status original = Status (mark original))) as [Heq|Hne].
  - rewrite bool_decide_eq_true_2 by exact Heq. reflexivity.
  - rewrite bool_decide_eq_false_2 by exact Hne. cbv beta iota.
    unfold kafkasecret.UpdateStatus, negb. rewrite call_run, mark_Namespace.
    by destruct (kafkasecret.updateStatus _ _ _ _).
Qed.

(** A later pass: the reload comes first, and what is compared and
    submitted is made from the reloaded copy. *)
Lemma attempt_later (n : nat) (stale : KafkaChannel) (h : History) :
  attempt (S n) stale h =
    let reload := KafkaChannelsGet (Namespace stale) (Name stale) in
    match List.find
            (fun kc => String.eqb (Namespace kc) (Namespace stale)
                       && String.eqb (Name kc) (Name stale))
            (kafkasecret.indexer (kafkasecret.kafkachannelLister r) h) with
    | None =>
        let e := errors.NewNotFound "kafkachannel" (Name stale) in
        ((Some e, stale), h ++ [reload (inl e)])
    | Some fresh =>
        if decide (Status fresh = Status (mark fresh))
        then ((None, fresh), h ++ [reload (inr fresh)])
        else
          let answer :=
            kafkasecret.updateStatus (kafkasecret.kafkaChannelClient r)
              (h ++ [reload (inr fresh)]) (Namespace fresh) (mark fresh) in
          ((answer, fresh),
           (h ++ [reload (inr fresh)])
             ++ [KafkaChannelsUpdateStatus (Namespace fresh) (mark fresh) answer])
    end.
Proof.
  unfold kafkasecret.updateKafkaChannelStatus_attempt, bind, ret, equality.DeepEqual.
  rewrite bool_decide_eq_true_2 by lia.
  unfold kafkasecret.Get. rewrite call_run.
  destruct (List.find _ _) as [fresh|]; [|reflexivity].
  cbv beta iota zeta.
  destruct (decide (Status fresh = Status (mark fresh))) as [Heq|Hne].
  - rewrite bool_decide_eq_true_2 by exact Heq. reflexivity.
  - rewrite bool_decide_eq_false_2 by exact Hne. cbv beta iota.
    unfold kafkasecret.UpdateStatus, negb. rewrite call_run, mark_Namespace.
    by destruct (kafkasecret.updateStatus _ _ _ _).
Qed.

Lemma RetryErrors_step (steps n : nat) (current : KafkaChannel)
    (lastErr : option error) (h : History) :
  reconciler.RetryErrors (S steps) errors.IsConflict attempt n current lastErr h =
    let '((err, current'), h') := attempt n current h in
    match err with
    | None => (None, h')
    | Some e =>
        if errors.IsConflict e
        then reconciler.RetryErrors steps errors.IsConflict attempt (S n) current' (Some e) h'
        else (Some e, h')
    end.
Proof.
  cbn [reconciler.RetryErrors]. unfold bind at 1.
  destruct (attempt n current h) as [[[e|] current'] h']; [|reflexivity].
  by destruct (errors.IsConflict e).
Qed.

(** After a conflict the loop goes on as [Retried] says, whatever the
    cluster answers. *)
Lemma RetryErrors_Retried (steps n : nat) (stale : KafkaChannel) (e : error) (h : History) :
  exists res evs,
    reconciler.RetryErrors steps errors.IsConflict attempt (S n) stale (Some e) h
      = (res, h ++ evs)
    /\ Retried mark steps stale evs.
Proof.
  revert n stale e h. induction steps as [|steps IH]; intros n stale e h.
  - exists (Some e), []. rewrite app_nil_r. split; [reflexivity|constructor].
  - rewrite RetryErrors_step, attempt_later.
    cbv zeta. destruct (List.find _ _) as [fresh|].
    + destruct (decide (Status fresh = Status (mark fresh))) as [Heq|Hne].
      * eexists _, _. split; [reflexivity|]. by apply retried_same.
      * destruct (kafkasecret.updateStatus _ _ _ _) as [e'|] eqn:Hans.
        -- destruct (errors.IsConflict e') eqn:Hc.
           ++ destruct (IH (S n) fresh e'
                          ((h ++ [KafkaChannelsGet (Namespace stale) (Name stale) (inr fresh)])
                             ++ [KafkaChannelsUpdateStatus (Namespace fresh) (mark fresh) (Some e')]))
                as (res & evs & Hrun & Hshape).
              exists res. eexists. rewrite Hrun. split.
              ** by rewrite <- !app_assoc.
              ** simpl. by apply retried_again.
           ++ eexists _, _. split.
              ** unfold ret. by rewrite <- app_assoc.
              ** simpl. apply retried_done; [by auto|]. intros ? [= <-]. exact Hc.
        -- eexists _, _. split.
           ++ unfold ret. by rewrite <- app_assoc.
           ++ simpl. apply retried_done; [by auto|]. intros ? [=].
    + eexists _, _. split; [reflexivity|]. apply retried_gone.
Qed.

(** The calls of a whole status update follow [Submitted]. *)
Lemma updateKafkaChannelStatus_Submitted (original : KafkaChannel) (h : History) :
  exists res evs,
    update original h = (res, h ++ evs)
    /\ Submitted mark (pred reconciler.DefaultRetrySteps) original evs.
Proof.
  unfold kafkasecret.updateKafkaChannelStatus, reconciler.RetryUpdateConflicts.
  change reconciler.DefaultRetrySteps with 5%nat. cbn [pred].
  rewrite RetryErrors_step, attempt_first.
  destruct (decide (Status original = Status (mark original))) as [Heq|Hne].
  - exists None, []. rewrite app_nil_r. split; [reflexivity|]. by apply submitted_same.
  - cbv zeta. destruct (kafkasecret.updateStatus _ _ _ _) as [e|] eqn:Hans.
    + destruct (errors.IsConflict e) eqn:Hc.
      * destruct (RetryErrors_Retried 4 0 original e
                    (h ++ [KafkaChannelsUpdateStatus (Namespace original) (mark original) (Some e)]))
          as (res & evs & Hrun & Hshape).
        exists res. eexists. rewrite Hrun. split.
        -- by rewrite <- app_assoc.
        -- simpl. by apply submitted_again.
      * eexists _, _. split; [reflexivity|].
        apply submitted_done; [by auto|]. intros ? [= <-]. exact Hc.
    + eexists _, _. split; [reflexivity|].
      apply submitted_done; [by auto|]. intros ? [=].
Qed.

(** C2. Write avoidance: when the status marked on the copy at hand (the
    original, or the copy a reload brought) equals the status that copy
    already has, no update call is issued: the run ends there with
    success.  Conversely every update call that is issued carries a status
    that differs from the status of the copy it was made from. *)
Theorem updateKafkaChannelStatus_write_avoidance (original : KafkaChannel) (h : History) :
  let evs := appended (update original) h in
  (Status (mark original) = Status original -> update original h = (None, h))
  /\ (forall i ns name fresh,
        evs !! i = Some (KafkaChannelsGet ns name (inr fresh)) ->
        Status (mark fresh) = Status fresh ->
        evs !! S i = None)
  /\ (forall ns ch answer,
        evs !! 0%nat = Some (KafkaChannelsUpdateStatus ns ch answer) ->
        ch = mark original /\ Status ch <> Status original)
  /\ (forall i ns ch answer,
        evs !! S i = Some (KafkaChannelsUpdateStatus ns ch answer) ->
        exists ns' name' fresh,
          evs !! i = Some (KafkaChannelsGet ns' name' (inr fresh))
          /\ ch = mark fresh
          /\ Status ch <> Status fresh).
Proof.
  destruct (updateKafkaChannelStatus_Submitted original h) as (res & evs & Hrun & Hshape).
  rewrite (appended_app _ _ _ _ Hrun). cbv zeta. split_and!.
  - intros Hsame. unfold kafkasecret.updateKafkaChannelStatus, reconciler.RetryUpdateConflicts.
    change reconciler.DefaultRetrySteps with 5%nat.
    rewrite RetryErrors_step, attempt_first.
    by rewrite decide_True.
  - intros i ns name fresh. by apply (Submitted_unchanged_stops mark _ _ _ _ _ _ _ Hshape).
  - intros ns ch answer. by apply (Submitted_first mark _ _ _ _ _ _ Hshape).
  - intros i ns ch answer. by apply (Submitted_from_fresh mark _ _ _ _ _ _ _ Hshape).
Qed.

(** C3, as the code has it.  Reload on conflict: whatever follows an
    update call in the run of one status update follows a conflict and is
    a reload of that channel, by namespace and name, from the lister;
    every update call after the first is made from the copy the reload
    just before it brought; at most [DefaultRetrySteps] update calls are
    made, and a conflict is left as the last word only when all of them
    are used up.  The mutation is recomputed and submitted again: the
    first pass submits the marked original whenever its status differs,
    and every reload that brings a copy whose marked status differs is
    followed at once by the update call for that marked copy.  (The copy
    the lister brings is whatever its cache holds: it can be the copy
    that was just rejected.) *)
Theorem updateKafkaChannelStatus_reloads_on_conflict (original : KafkaChannel) (h : History) :
  let evs := appended (update original) h in
  (length (List.filter isUpdateStatus evs) <= reconciler.DefaultRetrySteps)%nat
  /\ (forall i ns ch answer ev,
        evs !! i = Some (KafkaChannelsUpdateStatus ns ch answer) ->
        evs !! S i = Some ev ->
        (exists e, answer = Some e /\ errors.IsConflict e = true)
        /\ exists reloaded, ev = KafkaChannelsGet (Namespace ch) (Name ch) reloaded)
  /\ (forall i ns ch answer,
        evs !! S i = Some (KafkaChannelsUpdateStatus ns ch answer) ->
        exists ns' name' fresh,
          evs !! i = Some (KafkaChannelsGet ns' name' (inr fresh)) /\ ch = mark fresh)
  /\ (forall ns ch e,
        last evs = Some (KafkaChannelsUpdateStatus ns ch (Some e)) ->
        errors.IsConflict e = true ->
        length (List.filter isUpdateStatus evs) = reconciler.DefaultRetrySteps)
  /\ (Status (mark original) <> Status original ->
      exists answer,
        evs !! 0%nat
        = Some (KafkaChannelsUpdateStatus (Namespace original) (mark original) answer))
  /\ (forall i ns name fresh,
        evs !! i = Some (KafkaChannelsGet ns name (inr fresh)) ->
        Status (mark fresh) <> Status fresh ->
        exists answer,
          evs !! S i
          = Some (KafkaChannelsUpdateStatus (Namespace fresh) (mark fresh) answer)).
Proof.
  destruct (updateKafkaChannelStatus_Submitted original h) as (res & evs & Hrun & Hshape).
  rewrite (appended_app _ _ _ _ Hrun). cbv zeta.
  split; [|split; [|split; [|split; [|split]]]]; cycle 4.
  - exact (Submitted_first_submits mark _ _ _ Hshape).
  - intros i ns name fresh. exact (Submitted_differs_submits mark _ _ _ _ _ _ _ Hshape).
  - exact (Submitted_bounded mark _ _ _ Hshape).
  - intros i ns ch answer ev.
    by apply (Submitted_reload_follows mark mark_ObjectMeta _ _ _ _ _ _ _ _ Hshape).
  - intros i ns ch answer Hi.
    destruct (Submitted_from_fresh mark _ _ _ _ _ _ _ Hshape Hi)
      as (ns' & name' & fresh & Hj & -> & _).
    by exists ns', name', fresh.
  - intros ns ch e. by apply (Submitted_exhausted mark _ _ _ _ _ _ Hshape).
Qed.

(** The loop over the listed channels is [updateEach]: no channel is
    skipped, whatever the outcome of the ones before it. *)
Lemma updateLoop_updateEach (channels : list KafkaChannel) (flag : bool) (h : History) :
  kafkasecret.updateLoop r (Some <$> channels) flag
      serviceValid serviceReason serviceMessage
      deploymentValid deploymentReason deploymentMessage h
  = let '(errs, h') := updateEach (fun kc => update kc) channels h in
    (flag || existsb isErr errs, h').
Proof.
  revert flag h. induction channels as [|kc rest IH]; intros flag h.
  - cbn. unfold ret. by rewrite orb_false_r.
  - cbn [fmap list_fmap kafkasecret.updateLoop updateEach]. unfold bind, ret.
    destruct (kafkasecret.updateKafkaChannelStatus _ _ _ _ _ _ _ _ h) as [[e|] h1].
    + rewrite IH. destruct (updateEach _ rest h1) as [errs h2].
      cbn [existsb isErr orb]. by destruct flag.
    + rewrite IH. by destruct (updateEach _ rest h1) as [errs h2].
Qed.

Lemma updateEach_length (channels : list KafkaChannel) (h : History) :
  length (fst (updateEach (fun kc => update kc) channels h)) = length channels.
Proof.
  revert h. induction channels as [|kc rest IH]; intros h; [reflexivity|].
  cbn [updateEach]. unfold bind, ret.
  destruct (kafkasecret.updateKafkaChannelStatus _ _ _ _ _ _ _ _ h) as [e h1].
  specialize (IH h1).
  destruct (updateEach _ rest h1) as [errs h2]. cbn in *. by rewrite IH.
Qed.

(** The selector handed to the lister is the nil selector, which lets
    every cached channel through. *)
Lemma List_NewSelector (h : History) :
  kafkasecret.listFailure (kafkasecret.kafkachannelLister r) h = None ->
  kafkasecret.List (kafkasecret.kafkachannelLister r) labels.NewSelector h =
    let channels := kafkasecret.indexer (kafkasecret.kafkachannelLister r) h in
    (inr (Some <$> channels),
     h ++ [KafkaChannelsList labels.NewSelector (inr (Some <$> channels))]).
Proof.
  intros Hok. unfold kafkasecret.List. rewrite call_run, Hok.
  assert (Hall : forall l : list KafkaChannel,
             List.filter (fun kc => labels.Empty labels.NewSelector
                                    || labels.Matches labels.NewSelector
                                         (metav1.Labels (ObjectMeta kc))) l = l).
  { induction l as [|kc l IHl]; [reflexivity|]. cbn. f_equal. exact IHl. }
  cbv zeta. by rewrite Hall.
Qed.

(** C8. Best-effort fan-out: once the channels are listed, the status
    update is run for every one of them in turn, each run starting where
    the one before stopped whether that one succeeded or failed; the calls
    of every run stay in the history; the pass answers the one aggregate
    error exactly when at least one run answered an error.  Every cached
    channel labelled with the secret is among the channels processed. *)
Theorem reconcileKafkaChannelStatus_processes_all
    (secret : corev1.Secret) (requirement : labels.Requirement) (h : History) :
  labels.NewRequirement (validateLabelKey pkg) (validateLabelValue pkg)
    (KafkaSecretLabel pkg) labels.Equals
    [metav1.Name (corev1.Secret_ObjectMeta secret)] = inr requirement ->
  kafkasecret.listFailure (kafkasecret.kafkachannelLister r) h = None ->
  let channels := kafkasecret.indexer (kafkasecret.kafkachannelLister r) h in
  let listed := KafkaChannelsList labels.NewSelector (inr (Some <$> channels)) in
  let outcome := updateEach (fun kc => update kc) channels (h ++ [listed]) in
  kafkasecret.reconcileKafkaChannelStatus pkg r secret
      serviceValid serviceReason serviceMessage
      deploymentValid deploymentReason deploymentMessage h
    = (if existsb isErr (fst outcome)
       then Some (errors.Errorf "failed to update Status of one or more KafkaChannels")
       else None,
       snd outcome)
  /\ length (fst outcome) = length channels
  /\ (forall kc,
        In kc (kafkasecret.indexer (kafkasecret.kafkachannelLister r) h) ->
        metav1.Labels (ObjectMeta kc) !! KafkaSecretLabel pkg
          = Some (metav1.Name (corev1.Secret_ObjectMeta secret)) ->
        In kc channels).
Proof.
  intros Hreq Hok. cbv zeta. split_and!.
  - unfold kafkasecret.reconcileKafkaChannelStatus. rewrite Hreq.
    unfold bind at 1. rewrite (List_NewSelector h Hok). cbv zeta.
    unfold bind at 1. rewrite updateLoop_updateEach.
    destruct (updateEach _ _ _) as [errs h']. cbn [fst snd orb].
    by destruct (existsb isErr errs).
  - apply updateEach_length.
  - auto.
Qed.

End Aggregator.

(** ** The aggregator on the sample installation *)

(** A channel whose two leaves are already True: no call at all. *)
Lemma updateKafkaChannelStatus_write_avoidance_witness :
  Status (sample.marked sample.settled) = Status sample.settled
  /\ sample.update sample.calm sample.settled [] = (None, []).
Proof.
  split; [reflexivity|].
  apply (proj1 (updateKafkaChannelStatus_write_avoidance sample.calm
                  true EmptyString EmptyString true EmptyString EmptyString
                  sample.settled [])).
  reflexivity.
Defined.

(** The contended cluster: conflict, reload of [chan-a], update made from
    the version the reload brought.  The stubborn cluster: the run ends on
    a conflict once all the steps are used. *)
Lemma updateKafkaChannelStatus_reloads_on_conflict_witness :
  let evs := appended (sample.update sample.contended sample.chanA) [] in
  evs !! 0%nat = Some (KafkaChannelsUpdateStatus "ns1" (sample.marked sample.chanA)
                         (Some sample.conflict))
  /\ evs !! 1%nat = Some (KafkaChannelsGet "ns1" "chan-a" (inr sample.chanA2))
  /\ evs !! 2%nat = Some (KafkaChannelsUpdateStatus "ns1" (sample.marked sample.chanA2) None)
  /\ ((exists e, Some sample.conflict = Some e /\ errors.IsConflict e = true)
      /\ exists reloaded,
           KafkaChannelsGet "ns1" "chan-a" (inr sample.chanA2)
           = KafkaChannelsGet (Namespace (sample.marked sample.chanA))
               (Name (sample.marked sample.chanA)) reloaded)
  /\ (exists ns' name' fresh,
        evs !! 1%nat = Some (KafkaChannelsGet ns' name' (inr fresh))
        /\ sample.marked sample.chanA2
           = kafkasecret.markStatus true EmptyString EmptyString true EmptyString EmptyString fresh)
  /\ length (List.filter isUpdateStatus
               (appended (sample.update sample.stubborn sample.chanA) []))
     = reconciler.DefaultRetrySteps
  /\ Status (sample.marked sample.chanA2) <> Status sample.chanA2
  /\ (exists answer,
        evs !! 2%nat
        = Some (KafkaChannelsUpdateStatus (Namespace sample.chanA2)
                  (sample.marked sample.chanA2) answer)).
Proof.
  cbv zeta.
  pose proof (updateKafkaChannelStatus_reloads_on_conflict sample.contended
                true EmptyString EmptyString true EmptyString EmptyString
                sample.chanA []) as (_ & Hreload & Hfresh & _ & _ & Hagain).
  pose proof (updateKafkaChannelStatus_reloads_on_conflict sample.stubborn
                true EmptyString EmptyString true EmptyString EmptyString
                sample.chanA []) as (_ & _ & _ & Hspent & _).
  assert (Hdiffers : Status (sample.marked sample.chanA2) <> Status sample.chanA2)
    by discriminate.
  do 3 (split; [reflexivity|]). split; [|split; [|split; [|split]]].
  - apply (Hreload 0%nat "ns1"); reflexivity.
  - apply (Hfresh 1%nat "ns1" _ None). reflexivity.
  - apply (Hspent "ns1" (sample.marked sample.chanA) sample.conflict); reflexivity.
  - exact Hdiffers.
  - apply (Hagain 1%nat "ns1" "chan-a" sample.chanA2); [reflexivity|exact Hdiffers].
Defined.

(** C3, as stated, on the stubborn cluster, whose lister still holds the
    version of [chan-a] that was rejected: the conflict is followed by a
    reload, the reload brings that same version, and the very channel that
    was rejected is submitted again, unchanged, resource version
    included. *)
Lemma stale_copy_is_resubmitted_unchanged :
  let evs := appended (sample.update sample.stubborn sample.chanA) [] in
  evs !! 0%nat = Some (KafkaChannelsUpdateStatus "ns1" (sample.marked sample.chanA)
                         (Some sample.conflict))
  /\ errors.IsConflict sample.conflict = true
  /\ evs !! 1%nat = Some (KafkaChannelsGet "ns1" "chan-a" (inr sample.chanA))
  /\ evs !! 2%nat = Some (KafkaChannelsUpdateStatus "ns1" (sample.marked sample.chanA)
                            (Some sample.conflict))
  /\ metav1.ResourceVersion (ObjectMeta (sample.marked sample.chanA)) = "1"
  /\ List.filter isUpdateStatus evs
     = replicate 5 (KafkaChannelsUpdateStatus "ns1" (sample.marked sample.chanA)
                      (Some sample.conflict)).
Proof. cbv zeta. by split_and!. Qed.

(** C1. A pass for [secret-a] over a cache that holds [chan-a], labelled
    with [secret-a], and [chan-b], labelled with [secret-b]: the lister is
    asked with the nil selector, both channels are listed and both are
    updated. *)
Theorem reconcileKafkaChannelStatus_updates_other_secrets_channels :
  metav1.Labels (ObjectMeta sample.chanB) !! KafkaSecretLabel sample.pkg = Some "secret-b"
  /\ metav1.Name (corev1.Secret_ObjectMeta sample.secretA) = "secret-a"
  /\ sample.reconcileStatus sample.calm [] =
       (None,
        [ KafkaChannelsList labels.NewSelector (inr [Some sample.chanA; Some sample.chanB]);
          KafkaChannelsUpdateStatus "ns1" (sample.marked sample.chanA) None;
          KafkaChannelsUpdateStatus "ns2" (sample.marked sample.chanB) None ]).
Proof. split_and!; reflexivity. Qed.

(** The stubborn cluster: every update of [chan-a] conflicts until the
    steps run out, [chan-b] is updated all the same, the pass answers the
    aggregate error. *)
Lemma reconcileKafkaChannelStatus_processes_all_witness :
  let requirement :=
    {| labels.key := "kafkasecret"; labels.operator := labels.Equals;
       labels.strValues := ["secret-a"] |} in
  let listed :=
    KafkaChannelsList labels.NewSelector (inr [Some sample.chanA; Some sample.chanB]) in
  let outcome :=
    updateEach (fun kc => sample.update sample.stubborn kc) [sample.chanA; sample.chanB] [listed] in
  labels.NewRequirement (validateLabelKey sample.pkg) (validateLabelValue sample.pkg)
    (KafkaSecretLabel sample.pkg) labels.Equals ["secret-a"] = inr requirement
  /\ kafkasecret.listFailure (kafkasecret.kafkachannelLister sample.stubborn) [] = None
  /\ sample.reconcileStatus sample.stubborn [] =
       (if existsb isErr (fst outcome)
        then Some (errors.Errorf "failed to update Status of one or more KafkaChannels")
        else None,
        snd outcome)
  /\ fst outcome = [Some sample.conflict; None]
  /\ last (snd outcome)
     = Some (KafkaChannelsUpdateStatus "ns2" (sample.marked sample.chanB) None).
Proof.
  cbv zeta. split; [reflexivity|]. split; [reflexivity|].
  split; [|split; reflexivity].
  apply (reconcileKafkaChannelStatus_processes_all sample.pkg sample.stubborn
           true EmptyString EmptyString true EmptyString EmptyString
           sample.secretA
           {| labels.key := "kafkasecret"; labels.operator := labels.Equals;
              labels.strValues := ["secret-a"] |} []); reflexivity.
Defined.

(** ** The Desired-State Builder and the Reconciliation Engine *)

Section Engine.

Context (pkg : Imports) (r : kafkachannel.Reconciler).

Local Abbreviation systemNamespace := (KnativeEventingNamespace pkg).
Local Abbreviation dispatcherName channel := (DispatcherDnsSafeName pkg channel).
Local Abbreviation secretName channel :=
  (kafkachannel.GetKafkaSecretName (kafkachannel.adminClient r) (TopicName pkg channel)).
Local Abbreviation invalidSecret channel :=
  (errors.Errorf ("invalid kafkaSecret for topic '" +:+ TopicName pkg channel +:+ "'")).
Local Abbreviation deploymentFailed :=
  (event.String event.DispatcherDeploymentReconciliationFailed).

Lemma length_zero_empty (s : string) : (String.length s <= 0)%nat <-> s = EmptyString.
Proof. destruct s; cbn; split; intros; (lia || congruence). Qed.

Lemma dispatcherDeploymentEnvVars_unbound (channel : KafkaChannel) :
  secretName channel = EmptyString ->
  kafkachannel.dispatcherDeploymentEnvVars pkg r channel = ([], Some (invalidSecret channel)).
Proof.
  intros Hempty. unfold kafkachannel.dispatcherDeploymentEnvVars. cbv zeta.
  rewrite bool_decide_eq_true_2; [reflexivity|]. by apply length_zero_empty.
Qed.

Lemma newDispatcherDeployment_unbound (channel : KafkaChannel) :
  secretName channel = EmptyString ->
  kafkachannel.newDispatcherDeployment pkg r channel = (None, Some (invalidSecret channel)).
Proof.
  intros Hempty. unfold kafkachannel.newDispatcherDeployment. cbv zeta.
  by rewrite (dispatcherDeploymentEnvVars_unbound channel Hempty).
Qed.

(** The builder answers a deployment or an error, never neither. *)
Lemma newDispatcherDeployment_total (channel : KafkaChannel) :
  kafkachannel.newDispatcherDeployment pkg r channel <> (None, None).
Proof.
  unfold kafkachannel.newDispatcherDeployment. cbv zeta.
  destruct (kafkachannel.dispatcherDeploymentEnvVars pkg r channel) as [envVars [e|]];
    discriminate.
Qed.

Lemma newDispatcherDeployment_Namespace (channel : KafkaChannel) deployment err :
  kafkachannel.newDispatcherDeployment pkg r channel = (Some deployment, err) ->
  metav1.Namespace (appsv1.ObjectMeta deployment) = systemNamespace.
Proof.
  unfold kafkachannel.newDispatcherDeployment. cbv zeta.
  destruct (kafkachannel.dispatcherDeploymentEnvVars pkg r channel) as [envVars [e|]];
    [discriminate|].
  by intros [= <- _].
Qed.

(** The service reconciler, call by call. *)
Lemma reconcileDispatcherService_run (channel : KafkaChannel) (h : History) :
  kafkachannel.reconcileDispatcherService pkg r channel h =
    let got :=
      kafkachannel.getService (kafkachannel.serviceLister r) h
        systemNamespace (dispatcherName channel) in
    let h1 := h ++ [ServicesGet systemNamespace (dispatcherName channel) got] in
    match got with
    | inr _ => ((None, channel), h1)
    | inl e =>
        if errors.IsNotFound e
        then
          let service := kafkachannel.newDispatcherService pkg r channel in
          let created :=
            kafkachannel.createService (kafkachannel.kubeClientset r) h1
              systemNamespace service in
          ((match created with inl e' => Some e' | inr _ => None end, channel),
           h1 ++ [ServicesCreate systemNamespace service created])
        else ((Some e, channel), h1)
    end.
Proof.
  unfold kafkachannel.reconcileDispatcherService, kafkachannel.getDispatcherService,
    kafkachannel.Services_Get, bind.
  rewrite call_run. cbv zeta.
  destruct (kafkachannel.getService _ _ _ _) as [e|service]; [|reflexivity].
  destruct (errors.IsNotFound e); [|reflexivity].
  unfold kafkachannel.Services_Create. rewrite call_run.
  change (metav1.Namespace
            (corev1.Service_ObjectMeta (kafkachannel.newDispatcherService pkg r channel)))
    with systemNamespace.
  by destruct (kafkachannel.createService _ _ _ _).
Qed.

(** The deployment reconciler, call by call. *)
Lemma reconcileDispatcherDeployment_run (channel : KafkaChannel) (h : History) :
  kafkachannel.reconcileDispatcherDeployment pkg r channel h =
    let got :=
      kafkachannel.getDeployment (kafkachannel.deploymentLister r) h
        systemNamespace (dispatcherName channel) in
    let h1 := h ++ [DeploymentsGet systemNamespace (dispatcherName channel) got] in
    match got with
    | inr deployment =>
        ((None,
          withStatus channel
            (PropagateDispatcherStatus pkg (appsv1.Status deployment) (Status channel))),
         h1)
    | inl e =>
        if errors.IsNotFound e
        then
          match kafkachannel.newDispatcherDeployment pkg r channel with
          | (_, Some e') =>
              ((Some e',
                withStatus channel
                  (MarkDispatcherFailed deploymentFailed
                     ("Failed To Generate Dispatcher Deployment: " +:+ errors.Error e')
                     (Status channel))),
               h1)
          | (None, None) => ((None, channel), h1)
          | (Some deployment, None) =>
              let created :=
                kafkachannel.createDeployment (kafkachannel.kubeClientset r) h1
                  systemNamespace deployment in
              ((match created with inl e' => Some e' | inr _ => None end,
                withStatus channel
                  match created with
                  | inl e' =>
                      MarkDispatcherFailed deploymentFailed
                        ("Failed To Create Dispatcher Deployment: " +:+ errors.Error e')
                        (Status channel)
                  | inr deployment' =>
                      PropagateDispatcherStatus pkg (appsv1.Status deployment') (Status channel)
                  end),
               h1 ++ [DeploymentsCreate systemNamespace deployment created])
          end
        else
          ((Some e,
            withStatus channel
              (MarkDispatcherUnknown deploymentFailed
                 ("Failed To Get Dispatcher Deployment: " +:+ errors.Error e)
                 (Status channel))),
           h1)
    end.
Proof.
  unfold kafkachannel.reconcileDispatcherDeployment, kafkachannel.getDispatcherDeployment,
    kafkachannel.Deployments_Get, bind.
  rewrite call_run. cbv zeta.
  destruct (kafkachannel.getDeployment _ _ _ _) as [e|deployment]; [|reflexivity].
  destruct (errors.IsNotFound e); [|reflexivity].
  destruct (kafkachannel.newDispatcherDeployment pkg r channel) as [[deployment|] [e'|]] eqn:Hnew;
    try reflexivity.
  unfold kafkachannel.Deployments_Create. rewrite call_run.
  rewrite (newDispatcherDeployment_Namespace channel deployment None Hnew).
  by destruct (kafkachannel.createDeployment _ _ _ _).
Qed.

Local Abbreviation serviceFailed :=
  (event.String event.DispatcherServiceReconciliationFailed).

(** The warning recorded after a sub-resource failed. *)
Local Abbreviation warned channel reason what err :=
  (match err with
   | Some e => [RecorderEventf channel corev1.EventTypeWarning reason (what +:+ errors.Error e)]
   | None => []
   end).

Lemma reconcileDispatcherService_calls (channel : KafkaChannel) (h : History) :
  exists err got rest,
    kafkachannel.reconcileDispatcherService pkg r channel h
      = ((err, channel), h ++ ServicesGet systemNamespace (dispatcherName channel) got :: rest)
    /\ (rest = []
        \/ exists created,
             rest = [ServicesCreate systemNamespace
                       (kafkachannel.newDispatcherService pkg r channel) created]).
Proof.
  rewrite reconcileDispatcherService_run. cbv zeta.
  destruct (kafkachannel.getService _ _ _ _) as [e|service].
  - destruct (errors.IsNotFound e).
    + eexists _, _, _. rewrite <- app_assoc. split; [reflexivity|]. right. by eexists.
    + eexists _, _, _. split; [reflexivity|]. by left.
  - eexists _, _, _. split; [reflexivity|]. by left.
Qed.

Lemma reconcileDispatcherDeployment_calls (channel : KafkaChannel) (h : History) :
  exists res got rest,
    kafkachannel.reconcileDispatcherDeployment pkg r channel h
      = (res, h ++ DeploymentsGet systemNamespace (dispatcherName channel) got :: rest)
    /\ (rest = []
        \/ exists deployment created,
             kafkachannel.newDispatcherDeployment pkg r channel = (Some deployment, None)
             /\ rest = [DeploymentsCreate systemNamespace deployment created]).
Proof.
  rewrite reconcileDispatcherDeployment_run. cbv zeta.
  destruct (kafkachannel.getDeployment _ _ _ _) as [e|deployment].
  - destruct (errors.IsNotFound e).
    + destruct (kafkachannel.newDispatcherDeployment pkg r channel)
        as [[deployment|] [e'|]] eqn:Hnew.
      * eexists _, _, _. split; [reflexivity|]. by left.
      * eexists _, _, _. rewrite <- app_assoc. split; [reflexivity|]. right. by eexists _, _.
      * eexists _, _, _. split; [reflexivity|]. by left.
      * eexists _, _, _. split; [reflexivity|]. by left.
    + eexists _, _, _. split; [reflexivity|]. by left.
  - eexists _, _, _. split; [reflexivity|]. by left.
Qed.

(** [reconcileDispatcher] is the service reconciler, its warning, the
    deployment reconciler started where those two stopped, its warning,
    and the verdict over both errors. *)
Lemma reconcileDispatcher_run (channel : KafkaChannel) (h : History) :
  let service := kafkachannel.reconcileDispatcherService pkg r channel h in
  let serviceErr := fst (fst service) in
  let deployment :=
    kafkachannel.reconcileDispatcherDeployment pkg r (snd (fst service))
      (snd service
         ++ warned (snd (fst service)) serviceFailed
              "Failed To Reconcile Dispatcher Service: " serviceErr) in
  let deploymentErr := fst (fst deployment) in
  kafkachannel.reconcileDispatcher pkg r channel h =
    ((if isErr serviceErr || isErr deploymentErr
      then Some (errors.Errorf "failed to reconcile dispatcher resources")
      else None,
      snd (fst deployment)),
     snd deployment
       ++ warned (snd (fst deployment)) deploymentFailed
            "Failed To Reconcile Dispatcher Deployment: " deploymentErr).
Proof.
  cbv zeta. unfold kafkachannel.reconcileDispatcher, bind.
  destruct (kafkachannel.reconcileDispatcherService pkg r channel h)
    as [[serviceErr channel1] h1].
  cbn [fst snd].
  assert (Hwarn1 :
    (match serviceErr with
     | Some err =>
         kafkachannel.Eventf channel1 corev1.EventTypeWarning serviceFailed
           ("Failed To Reconcile Dispatcher Service: " +:+ errors.Error err)
     | None => ret ()
     end) h1
    = ((), h1 ++ warned channel1 serviceFailed
                   "Failed To Reconcile Dispatcher Service: " serviceErr)).
  { destruct serviceErr; [reflexivity|]. unfold ret. by rewrite app_nil_r. }
  rewrite Hwarn1.
  destruct (kafkachannel.reconcileDispatcherDeployment pkg r channel1 _)
    as [[deploymentErr channel2] h2].
  cbn [fst snd].
  destruct deploymentErr as [e2|].
  - unfold kafkachannel.Eventf. rewrite orb_true_r. reflexivity.
  - unfold ret. rewrite app_nil_r. by destruct (isErr serviceErr).
Qed.

(** The calls of a whole pass, in order. *)
Lemma reconcileDispatcher_calls (channel : KafkaChannel) (h : History) :
  exists serviceErr got1 rest1 res2 got2 rest2,
    kafkachannel.reconcileDispatcherService pkg r channel h
      = ((serviceErr, channel),
         h ++ ServicesGet systemNamespace (dispatcherName channel) got1 :: rest1)
    /\ (rest1 = []
        \/ exists created,
             rest1 = [ServicesCreate systemNamespace
                        (kafkachannel.newDispatcherService pkg r channel) created])
    /\ (rest2 = []
        \/ exists deployment created,
             kafkachannel.newDispatcherDeployment pkg r channel = (Some deployment, None)
             /\ rest2 = [DeploymentsCreate systemNamespace deployment created])
    /\ appended (kafkachannel.reconcileDispatcher pkg r channel) h
       = ServicesGet systemNamespace (dispatcherName channel) got1 :: rest1
         ++ warned channel serviceFailed "Failed To Reconcile Dispatcher Service: " serviceErr
         ++ DeploymentsGet systemNamespace (dispatcherName channel) got2 :: rest2
         ++ warned (snd res2) deploymentFailed
              "Failed To Reconcile Dispatcher Deployment: " (fst res2).
Proof.
  destruct (reconcileDispatcherService_calls channel h)
    as (serviceErr & got1 & rest1 & Hservice & Hrest1).
  pose proof (reconcileDispatcher_run channel h) as Hrun. cbv zeta in Hrun.
  rewrite Hservice in Hrun. cbn [fst snd] in Hrun.
  destruct (reconcileDispatcherDeployment_calls channel
              ((h ++ ServicesGet systemNamespace (dispatcherName channel) got1 :: rest1)
                 ++ warned channel serviceFailed
                      "Failed To Reconcile Dispatcher Service: " serviceErr))
    as (res2 & got2 & rest2 & Hdeployment & Hrest2).
  rewrite Hdeployment in Hrun. cbn [fst snd] in Hrun.
  exists serviceErr, got1, rest1, res2, got2, rest2.
  split; [exact Hservice|]. split; [exact Hrest1|]. split; [exact Hrest2|].
  eapply appended_app. rewrite Hrun. f_equal.
  rewrite <- !app_assoc. cbn [app]. rewrite <- ?app_assoc. cbn [app].
  by rewrite <- ?app_assoc.
Qed.

(** Both fetches are in every pass. *)
Lemma reconcileDispatcher_fetches (channel : KafkaChannel) (h : History) :
  (exists got, In (ServicesGet systemNamespace (dispatcherName channel) got)
                  (appended (kafkachannel.reconcileDispatcher pkg r channel) h))
  /\ (exists got, In (DeploymentsGet systemNamespace (dispatcherName channel) got)
                     (appended (kafkachannel.reconcileDispatcher pkg r channel) h)).
Proof.
  destruct (reconcileDispatcher_calls channel h)
    as (serviceErr & got1 & rest1 & res2 & got2 & rest2 & _ & _ & _ & Hevs).
  rewrite Hevs. split.
  - exists got1. by left.
  - exists got2. right. apply in_or_app. right. apply in_or_app. right. by left.
Qed.

(** Every entry of a pass is one of five kinds. *)
Lemma reconcileDispatcher_events (channel : KafkaChannel) (h : History) (ev : Event) :
  In ev (appended (kafkachannel.reconcileDispatcher pkg r channel) h) ->
  (exists got, ev = ServicesGet systemNamespace (dispatcherName channel) got)
  \/ (exists created,
        ev = ServicesCreate systemNamespace
               (kafkachannel.newDispatcherService pkg r channel) created)
  \/ (exists got, ev = DeploymentsGet systemNamespace (dispatcherName channel) got)
  \/ (exists deployment created,
        kafkachannel.newDispatcherDeployment pkg r channel = (Some deployment, None)
        /\ ev = DeploymentsCreate systemNamespace deployment created)
  \/ exists kc eventtype reason message, ev = RecorderEventf kc eventtype reason message.
Proof.
  destruct (reconcileDispatcher_calls channel h)
    as (serviceErr & got1 & rest1 & res2 & got2 & rest2 & _ & Hrest1 & Hrest2 & Hevs).
  rewrite Hevs. clear Hevs.
  intros [<-|Hev]; [left; by eexists|].
  apply in_app_or in Hev as [Hev|Hev].
  { destruct Hrest1 as [->|[created ->]]; [done|].
    destruct Hev as [<-|[]]. right. left. by eexists. }
  apply in_app_or in Hev as [Hev|Hev].
  { destruct serviceErr; [|done]. destruct Hev as [<-|[]].
    do 4 right. by eexists _, _, _, _. }
  destruct Hev as [<-|Hev]; [right; right; left; by eexists|].
  apply in_app_or in Hev as [Hev|Hev].
  { destruct Hrest2 as [->|(deployment & created & Hnew & ->)]; [done|].
    destruct Hev as [<-|[]]. right. right. right. left. by eexists _, _. }
  destruct (fst res2); [|done]. destruct Hev as [<-|[]].
  do 4 right. by eexists _, _, _, _.
Qed.


(** C5, as the code has it.  When the fetch fails with an error other than
    NotFound: the deployment reconciler marks the Dispatcher condition
    Unknown and returns the error, its only call being the fetch; the
    service reconciler returns the error, its only call being the fetch,
    and leaves the channel as it was. *)
Theorem fetch_failure_is_returned_without_create (channel : KafkaChannel) (h : History) (e : error) :
  errors.IsNotFound e = false ->
  (kafkachannel.getDeployment (kafkachannel.deploymentLister r) h
     systemNamespace (dispatcherName channel) = inl e ->
   kafkachannel.reconcileDispatcherDeployment pkg r channel h
   = ((Some e,
       withStatus channel
         (MarkDispatcherUnknown deploymentFailed
            ("Failed To Get Dispatcher Deployment: " +:+ errors.Error e) (Status channel))),
      h ++ [DeploymentsGet systemNamespace (dispatcherName channel) (inl e)]))
  /\ (kafkachannel.getService (kafkachannel.serviceLister r) h
        systemNamespace (dispatcherName channel) = inl e ->
      kafkachannel.reconcileDispatcherService pkg r channel h
      = ((Some e, channel),
         h ++ [ServicesGet systemNamespace (dispatcherName channel) (inl e)])).
Proof.
  intros Hother. split; intros Hgot.
  - rewrite reconcileDispatcherDeployment_run. cbv zeta. by rewrite Hgot, Hother.
  - rewrite reconcileDispatcherService_run. cbv zeta. by rewrite Hgot, Hother.
Qed.

(** C6, as the code has it.  When the fetch succeeds: the deployment
    reconciler propagates the status of the deployment found into the
    channel's status and returns no error; the service reconciler returns
    no error and leaves the channel as it was.  Neither issues a further
    call. *)
Theorem fetch_success_propagates_deployment_status (channel : KafkaChannel) (h : History) :
  (forall deployment,
     kafkachannel.getDeployment (kafkachannel.deploymentLister r) h
       systemNamespace (dispatcherName channel) = inr deployment ->
     kafkachannel.reconcileDispatcherDeployment pkg r channel h
     = ((None,
         withStatus channel
           (PropagateDispatcherStatus pkg (appsv1.Status deployment) (Status channel))),
        h ++ [DeploymentsGet systemNamespace (dispatcherName channel) (inr deployment)]))
  /\ (forall service,
        kafkachannel.getService (kafkachannel.serviceLister r) h
          systemNamespace (dispatcherName channel) = inr service ->
        kafkachannel.reconcileDispatcherService pkg r channel h
        = ((None, channel),
           h ++ [ServicesGet systemNamespace (dispatcherName channel) (inr service)])).
Proof.
  split; intros found Hgot.
  - rewrite reconcileDispatcherDeployment_run. cbv zeta. by rewrite Hgot.
  - rewrite reconcileDispatcherService_run. cbv zeta. by rewrite Hgot.
Qed.

(** C7. Both sub-resources are attempted in every pass: the service is
    fetched, and the deployment reconciler is run from wherever the
    service reconciler stopped, whether that one failed or not, so the
    deployment is fetched too.  One aggregate error is returned exactly
    when the service reconciler or the deployment reconciler returned an
    error. *)
Theorem reconcileDispatcher_attempts_both (channel : KafkaChannel) (h : History) :
  let service := kafkachannel.reconcileDispatcherService pkg r channel h in
  let serviceErr := fst (fst service) in
  let deployment :=
    kafkachannel.reconcileDispatcherDeployment pkg r (snd (fst service))
      (snd service
         ++ warned (snd (fst service)) serviceFailed
              "Failed To Reconcile Dispatcher Service: " serviceErr) in
  let deploymentErr := fst (fst deployment) in
  let pass := kafkachannel.reconcileDispatcher pkg r channel h in
  (exists got, In (ServicesGet systemNamespace (dispatcherName channel) got)
                  (appended (kafkachannel.reconcileDispatcher pkg r channel) h))
  /\ (exists got, In (DeploymentsGet systemNamespace (dispatcherName channel) got)
                     (appended (kafkachannel.reconcileDispatcher pkg r channel) h))
  /\ snd pass
     = snd deployment
         ++ warned (snd (fst deployment)) deploymentFailed
              "Failed To Reconcile Dispatcher Deployment: " deploymentErr
  /\ fst (fst pass)
     = (if isErr serviceErr || isErr deploymentErr
        then Some (errors.Errorf "failed to reconcile dispatcher resources")
        else None)
  /\ (fst (fst pass) <> None <-> serviceErr <> None \/ deploymentErr <> None).
Proof.
  cbv zeta.
  destruct (reconcileDispatcher_fetches channel h) as [Hservice Hdeployment].
  split; [exact Hservice|]. split; [exact Hdeployment|].
  pose proof (reconcileDispatcher_run channel h) as Hrun. cbv zeta in Hrun.
  rewrite Hrun. cbn [fst snd]. split; [reflexivity|]. split; [reflexivity|].
  destruct (fst (fst (kafkachannel.reconcileDispatcherService pkg r channel h))) as [e1|];
    destruct (fst (fst (kafkachannel.reconcileDispatcherDeployment pkg r _ _))) as [e2|];
    cbn; split; intros H; try done; try (left; done); try (right; done).
  by destruct H.
Qed.

(** C9. With a secret bound to the channel's topic the builder succeeds
    and the one container of the deployment it builds carries exactly
    thirteen environment variables: the ten fixed ones, by name and in
    this order, none of them read from a secret, then the broker list, the
    user name and the password, each read from the bound secret under its
    own data key. *)
Theorem bound_secret_gives_thirteen_variables (channel : KafkaChannel) :
  secretName channel <> EmptyString ->
  exists envVars deployment,
    kafkachannel.dispatcherDeploymentEnvVars pkg r channel = (envVars, None)
    /\ kafkachannel.newDispatcherDeployment pkg r channel = (Some deployment, None)
    /\ corev1.Env <$> corev1.Containers
                        (corev1.Template_Spec (appsv1.Template (appsv1.Spec deployment)))
       = [envVars]
    /\ length envVars = 13%nat
    /\ corev1.Name <$> envVars
       = [ NamespaceEnvKey pkg; PodNameEnvVarKey pkg; ContainerNameEnvVarKEy pkg;
           KnativeLoggingConfigMapNameEnvVarKey pkg; MetricsPortEnvVarKey pkg;
           MetricsDomainEnvVarKey pkg; HealthPortEnvVarKey pkg; ChannelKeyEnvVarKey pkg;
           ServiceNameEnvVarKey pkg; KafkaTopicEnvVarKey pkg;
           KafkaBrokerEnvVarKey pkg; KafkaUsernameEnvVarKey pkg; KafkaPasswordEnvVarKey pkg ]
    /\ Forall (fun envVar => corev1.ValueFrom envVar ≫= corev1.SecretKeyRef = None)
         (take 10 envVars)
    /\ (fun envVar => corev1.ValueFrom envVar ≫= corev1.SecretKeyRef) <$> drop 10 envVars
       = [ Some {| corev1.LocalObjectReference := secretName channel;
                   corev1.Key := KafkaSecretDataKeyBrokers pkg |};
           Some {| corev1.LocalObjectReference := secretName channel;
                   corev1.Key := KafkaSecretDataKeyUsername pkg |};
           Some {| corev1.LocalObjectReference := secretName channel;
                   corev1.Key := KafkaSecretDataKeyPassword pkg |} ].
Proof.
  intros Hbound.
  assert (Hlen : bool_decide (String.length (secretName channel) <= 0)%nat = false).
  { apply bool_decide_eq_false_2. intros Hle. by apply Hbound, length_zero_empty. }
  eexists _, _. split.
  { unfold kafkachannel.dispatcherDeploymentEnvVars. cbv zeta. rewrite Hlen. reflexivity. }
  split.
  { unfold kafkachannel.newDispatcherDeployment, kafkachannel.dispatcherDeploymentEnvVars.
    cbv zeta. rewrite Hlen. reflexivity. }
  split; [reflexivity|]. split; [reflexivity|]. split; [reflexivity|].
  split; [|reflexivity].
  cbn [app take]. repeat constructor.
Qed.

(** C10. Every call a pass makes to the object store, lookup or creation,
    service or deployment, is addressed to the system namespace, whatever
    the namespace of the channel; the objects created carry that namespace
    themselves; a creation is addressed to the namespace its lookup was
    addressed to; and for a channel that lives elsewhere no call is
    addressed to the channel's own namespace. *)
Theorem reconcileDispatcher_stays_in_system_namespace (channel : KafkaChannel) (h : History) :
  let evs := appended (kafkachannel.reconcileDispatcher pkg r channel) h in
  (forall ev ns, In ev evs -> storeNamespace ev = Some ns -> ns = systemNamespace)
  /\ (forall ns service created,
        In (ServicesCreate ns service created) evs ->
        metav1.Namespace (corev1.Service_ObjectMeta service) = ns
        /\ exists got, In (ServicesGet ns (dispatcherName channel) got) evs)
  /\ (forall ns deployment created,
        In (DeploymentsCreate ns deployment created) evs ->
        metav1.Namespace (appsv1.ObjectMeta deployment) = ns
        /\ exists got, In (DeploymentsGet ns (dispatcherName channel) got) evs)
  /\ (Namespace channel <> systemNamespace ->
      forall ev, In ev evs -> storeNamespace ev <> Some (Namespace channel)).
Proof.
  cbv zeta.
  destruct (reconcileDispatcher_fetches channel h) as [Hservice Hdeployment].
  pose proof (reconcileDispatcher_events channel h) as Hkinds.
  split_and!.
  - intros ev ns Hev Hns.
    destruct (Hkinds ev Hev)
      as [[got ->]|[[created ->]|[[got ->]|[(deployment & created & _ & ->)
                                             |(kc & t & rs & m & ->)]]]];
      cbn in Hns; congruence.
  - intros ns service created Hev.
    destruct (Hkinds _ Hev)
      as [[got ?]|[[created' Heq]|[[got ?]|[(deployment & created' & _ & ?)
                                             |(kc & t & rs & m & ?)]]]];
      try discriminate.
    injection Heq as -> -> ->. by split.
  - intros ns deployment created Hev.
    destruct (Hkinds _ Hev)
      as [[got ?]|[[created' ?]|[[got ?]|[(deployment' & created' & Hnew & Heq)
                                           |(kc & t & rs & m & ?)]]]];
      try discriminate.
    injection Heq as -> -> ->. split; [|exact Hdeployment].
    exact (newDispatcherDeployment_Namespace channel _ _ Hnew).
  - intros Helsewhere ev Hev Hns.
    destruct (Hkinds ev Hev)
      as [[got ->]|[[created ->]|[[got ->]|[(deployment & created & _ & ->)
                                             |(kc & t & rs & m & ->)]]]];
      cbn in Hns; congruence.
Qed.

End Engine.

(** ** The engine on the sample installation *)



(** C5, as stated, at a service lister that fails with an error other
    than NotFound, for a channel whose Service condition is True: the pass
    returns an error and issues no create call, but the Service condition
    is not marked Unknown: it is True after the pass as it was before. *)
Lemma service_fetch_failure_marks_no_condition :
  let run := kafkachannel.reconcileDispatcher sample.pkg sample.outage sample.settled [] in
  kafkachannel.getService (kafkachannel.serviceLister sample.outage) []
    (KnativeEventingNamespace sample.pkg) (DispatcherDnsSafeName sample.pkg sample.settled)
    = inl sample.unavailable
  /\ errors.IsNotFound sample.unavailable = false
  /\ isErr (fst (fst run)) = true
  /\ List.filter isCreate (snd run) = []
  /\ Service (Status (snd (fst run))) = Service (Status sample.settled)
  /\ stateOf (Service (Status (snd (fst run)))) = Some ConditionTrue
  /\ stateOf (Service (Status (snd (fst run)))) <> Some ConditionUnknown.
Proof. cbv zeta. split_and!; try reflexivity. discriminate. Qed.

(** Both listers down. *)
Lemma fetch_failure_is_returned_without_create_witness :
  errors.IsNotFound sample.unavailable = false
  /\ kafkachannel.reconcileDispatcherDeployment sample.pkg sample.outage sample.chanA []
     = ((Some sample.unavailable,
         withStatus sample.chanA
           (MarkDispatcherUnknown "DispatcherDeploymentReconciliationFailed"
              "Failed To Get Dispatcher Deployment: etcd unavailable"
              (Status sample.chanA))),
        [DeploymentsGet "knative-eventing" "chan-a-ns1-dispatcher" (inl sample.unavailable)])
  /\ kafkachannel.reconcileDispatcherService sample.pkg sample.outage sample.chanA []
     = ((Some sample.unavailable, sample.chanA),
        [ServicesGet "knative-eventing" "chan-a-ns1-dispatcher" (inl sample.unavailable)]).
Proof.
  split; [reflexivity|].
  destruct (fetch_failure_is_returned_without_create sample.pkg sample.outage
              sample.chanA [] sample.unavailable eq_refl) as [Hdeployment Hservice].
  split; [exact (Hdeployment eq_refl)|exact (Hservice eq_refl)].
Defined.

(** C6, as stated, at a service lister that finds the service, for a
    channel whose Service condition is False: the pass succeeds, but the
    Service condition is not set True: it is False after the pass as it
    was before. *)
Lemma service_found_marks_no_condition :
  let run := kafkachannel.reconcileDispatcher sample.pkg sample.steady sample.troubled [] in
  kafkachannel.getService (kafkachannel.serviceLister sample.steady) []
    (KnativeEventingNamespace sample.pkg) (DispatcherDnsSafeName sample.pkg sample.troubled)
    = inr sample.liveService
  /\ fst (fst run) = None
  /\ Service (Status (snd (fst run))) = Service (Status sample.troubled)
  /\ stateOf (Service (Status (snd (fst run)))) = Some ConditionFalse
  /\ stateOf (Service (Status (snd (fst run)))) <> Some ConditionTrue.
Proof. cbv zeta. split_and!; try reflexivity. discriminate. Qed.

(** Service and deployment found. *)
Lemma fetch_success_propagates_deployment_status_witness :
  kafkachannel.getDeployment (kafkachannel.deploymentLister sample.steady) []
    "knative-eventing" "chan-a-ns1-dispatcher" = inr sample.liveDeployment
  /\ kafkachannel.getService (kafkachannel.serviceLister sample.steady) []
       "knative-eventing" "chan-a-ns1-dispatcher" = inr sample.liveService
  /\ kafkachannel.reconcileDispatcherDeployment sample.pkg sample.steady sample.chanA []
     = ((None,
         withStatus sample.chanA
           (PropagateDispatcherStatus sample.pkg (appsv1.Status sample.liveDeployment)
              (Status sample.chanA))),
        [DeploymentsGet "knative-eventing" "chan-a-ns1-dispatcher" (inr sample.liveDeployment)])
  /\ kafkachannel.reconcileDispatcherService sample.pkg sample.steady sample.chanA []
     = ((None, sample.chanA),
        [ServicesGet "knative-eventing" "chan-a-ns1-dispatcher" (inr sample.liveService)]).
Proof.
  split; [reflexivity|]. split; [reflexivity|].
  destruct (fetch_success_propagates_deployment_status sample.pkg sample.steady
              sample.chanA []) as [Hdeployment Hservice].
  split; [exact (Hdeployment sample.liveDeployment eq_refl)
         |exact (Hservice sample.liveService eq_refl)].
Defined.

(** [chan-a] of [ns1], bound to [kafka-secret-ns1-chan-a]. *)
Lemma bound_secret_gives_thirteen_variables_witness :
  kafkachannel.GetKafkaSecretName (kafkachannel.adminClient sample.firstPass)
    (TopicName sample.pkg sample.chanA) = "kafka-secret-ns1-chan-a"
  /\ length (fst (kafkachannel.dispatcherDeploymentEnvVars
                    sample.pkg sample.firstPass sample.chanA)) = 13%nat.
Proof.
  split; [reflexivity|].
  destruct (bound_secret_gives_thirteen_variables sample.pkg sample.firstPass sample.chanA)
    as (envVars & deployment & Henv & _ & _ & Hlen & _).
  - vm_compute. discriminate.
  - rewrite Henv. exact Hlen.
Defined.

(** A first pass for [chan-a], which lives in [ns1]: service and
    deployment are looked up and created, never in [ns1]. *)
Lemma reconcileDispatcher_stays_in_system_namespace_witness :
  Namespace sample.chanA <> KnativeEventingNamespace sample.pkg
  /\ forall ev,
       In ev (appended (kafkachannel.reconcileDispatcher
                          sample.pkg sample.firstPass sample.chanA) []) ->
       storeNamespace ev <> Some "ns1".
Proof.
  assert (Helsewhere : Namespace sample.chanA <> KnativeEventingNamespace sample.pkg).
  { vm_compute. discriminate. }
  split; [exact Helsewhere|].
  destruct (reconcileDispatcher_stays_in_system_namespace sample.pkg sample.firstPass
              sample.chanA []) as (_ & _ & _ & Hnever).
  exact (Hnever Helsewhere).
Defined.

(** The service lister is down and the deployment cannot be created: the
    deployment is fetched and its creation attempted all the same, and the
    pass answers the aggregate error. *)
Lemma reconcileDispatcher_attempts_both_witness :
  let pass := kafkachannel.reconcileDispatcher sample.pkg sample.failing sample.chanA [] in
  fst (fst (kafkachannel.reconcileDispatcherService sample.pkg sample.failing sample.chanA []))
    = Some sample.unavailable
  /\ (exists got, In (DeploymentsGet "knative-eventing" "chan-a-ns1-dispatcher" got) (snd pass))
  /\ fst (fst pass) <> None.
Proof.
  cbv zeta. split; [reflexivity|].
  destruct (reconcileDispatcher_attempts_both sample.pkg sample.failing sample.chanA [])
    as (_ & Hdeployment & _ & _ & Hverdict).
  split; [exact Hdeployment|].
  apply Hverdict. left. discriminate.
Defined.

(** * Further properties of the two reconcilers *)

(** ** More on the shape of a status update *)

Lemma lastAnswerOr_cons (otherwise : option error) (ev : Event) (evs : list Event) :
  lastAnswerOr otherwise (ev :: evs) = lastAnswerOr (answerOf ev) evs.
Proof.
  unfold lastAnswerOr. destruct evs as [|ev' evs]; [reflexivity|].
  rewrite last_cons_cons. destruct (last (ev' :: evs)) eqn:Hlast; [reflexivity|].
  by apply last_None in Hlast.
Qed.

Section ShapeReloads.

Context (mark : KafkaChannel -> KafkaChannel).
Context (mark_meta : forall kc, ObjectMeta (mark kc) = ObjectMeta kc).

Lemma Retried_reload_position n stale evs i ns name reloaded :
  Retried mark n stale evs ->
  evs !! i = Some (KafkaChannelsGet ns name reloaded) ->
  (i = 0%nat /\ ns = Namespace stale /\ name = Name stale)
  \/ exists j ns' ch e,
       i = S j
       /\ evs !! j = Some (KafkaChannelsUpdateStatus ns' ch (Some e))
       /\ errors.IsConflict e = true
       /\ ns = Namespace ch /\ name = Name ch.
Proof.
  intros Hshape. revert i.
  induction Hshape as [| | |n stale fresh a Hne Ha|n stale fresh e rest Hne He Hrest IH];
    intros i Hi.
  - destruct i; discriminate.
  - destruct i as [|[|i]]; try discriminate. injection Hi as <- <- <-. by left.
  - destruct i as [|[|i]]; try discriminate. injection Hi as <- <- <-. by left.
  - destruct i as [|[|[|i]]]; try discriminate. injection Hi as <- <- <-. by left.
  - destruct i as [|[|i]]; try discriminate.
    + injection Hi as <- <- <-. by left.
    + right. destruct (IH i Hi) as [(-> & -> & ->)|(j & ns' & ch & e' & -> & Hj & Hc & -> & ->)].
      * exists 1%nat, (Namespace fresh), (mark fresh), e.
        unfold Namespace, Name. rewrite mark_meta. by split_and!.
      * exists (S (S j)), ns', ch, e'. by split_and!.
Qed.

Lemma Retried_reloads_bounded n stale evs :
  Retried mark n stale evs -> (length (List.filter isKafkaChannelsGet evs) <= n)%nat.
Proof. induction 1; cbn; lia. Qed.

Lemma Retried_update_namespace n stale evs i ns ch answer :
  Retried mark n stale evs ->
  evs !! i = Some (KafkaChannelsUpdateStatus ns ch answer) ->
  ns = Namespace ch.
Proof.
  intros Hshape. revert i.
  induction Hshape as [| | |n stale fresh a Hne Ha|n stale fresh e rest Hne He Hrest IH];
    intros i Hi.
  - destruct i; discriminate.
  - destruct i as [|[|i]]; discriminate.
  - destruct i as [|[|i]]; discriminate.
  - destruct i as [|[|[|i]]]; try discriminate. injection Hi as <- <- <-.
    unfold Namespace. by rewrite mark_meta.
  - destruct i as [|[|i]]; try discriminate.
    + injection Hi as <- <- <-. unfold Namespace. by rewrite mark_meta.
    + exact (IH i Hi).
Qed.

Lemma Submitted_reload_position n original evs i ns name reloaded :
  Submitted mark n original evs ->
  evs !! i = Some (KafkaChannelsGet ns name reloaded) ->
  exists j ns' ch e,
    i = S j
    /\ evs !! j = Some (KafkaChannelsUpdateStatus ns' ch (Some e))
    /\ errors.IsConflict e = true
    /\ ns = Namespace ch /\ name = Name ch.
Proof.
  destruct 1 as [| |e rest Hne He Hrest]; intros Hi;
    try (destruct i as [|[|i]]; discriminate).
  destruct i as [|i]; [discriminate|].
  destruct (Retried_reload_position _ _ _ _ _ _ _ Hrest Hi)
    as [(-> & -> & ->)|(j & ns' & ch & e' & -> & Hj & Hc & -> & ->)].
  - exists 0%nat, (Namespace original), (mark original), e.
    unfold Namespace, Name. rewrite mark_meta. by split_and!.
  - exists (S j), ns', ch, e'. by split_and!.
Qed.

Lemma Submitted_reloads_bounded n original evs :
  Submitted mark n original evs -> (length (List.filter isKafkaChannelsGet evs) <= n)%nat.
Proof.
  destruct 1 as [| |e rest Hne He Hrest]; cbn; try lia.
  exact (Retried_reloads_bounded _ _ _ Hrest).
Qed.

Lemma Submitted_update_namespace n original evs i ns ch answer :
  Submitted mark n original evs ->
  evs !! i = Some (KafkaChannelsUpdateStatus ns ch answer) ->
  ns = Namespace ch.
Proof.
  destruct 1 as [| |e rest Hne He Hrest]; intros Hi;
    try (destruct i as [|[|i]]; try discriminate;
         injection Hi as <- <- <-; unfold Namespace; by rewrite mark_meta).
  destruct i as [|i].
  - injection Hi as <- <- <-. unfold Namespace. by rewrite mark_meta.
  - exact (Retried_update_namespace _ _ _ _ _ _ _ Hrest Hi).
Qed.

End ShapeReloads.

(** ** More on the Status Aggregator *)

Section AggregatorCoverage.

Context (pkg : Imports) (r : kafkasecret.Reconciler).
Context (serviceValid : bool) (serviceReason serviceMessage : string).
Context (deploymentValid : bool) (deploymentReason deploymentMessage : string).

Local Abbreviation mark :=
  (kafkasecret.markStatus serviceValid serviceReason serviceMessage
                          deploymentValid deploymentReason deploymentMessage).
Local Abbreviation attempt :=
  (kafkasecret.updateKafkaChannelStatus_attempt r
     serviceValid serviceReason serviceMessage
     deploymentValid deploymentReason deploymentMessage).
Local Abbreviation update kc :=
  (kafkasecret.updateKafkaChannelStatus r kc
     serviceValid serviceReason serviceMessage
     deploymentValid deploymentReason deploymentMessage).
Local Abbreviation reconcile secret :=
  (kafkasecret.reconcileKafkaChannelStatus pkg r secret
     serviceValid serviceReason serviceMessage
     deploymentValid deploymentReason deploymentMessage).
Local Abbreviation requirementFor secret :=
  (labels.NewRequirement (validateLabelKey pkg) (validateLabelValue pkg)
     (KafkaSecretLabel pkg) labels.Equals
     [metav1.Name (corev1.Secret_ObjectMeta secret)]).

Lemma mark_leaves (kc : KafkaChannel) :
  ObjectMeta (mark kc) = ObjectMeta kc
  /\ Dispatcher (Status (mark kc)) = Dispatcher (Status kc)
  /\ Service (Status (mark kc))
     = Some (if serviceValid then markTrue else markFalse serviceReason serviceMessage)
  /\ Endpoints (Status (mark kc))
     = Some (if deploymentValid then markTrue
             else markFalse deploymentReason deploymentMessage).
Proof. unfold kafkasecret.markStatus. by destruct serviceValid, deploymentValid. Qed.

Lemma mark_idempotent (kc : KafkaChannel) : mark (mark kc) = mark kc.
Proof. unfold kafkasecret.markStatus. by destruct serviceValid, deploymentValid. Qed.

(** After a conflict the loop answers the answer to its last call, or the
    conflict itself when it makes no further call. *)
Lemma RetryErrors_result (steps n : nat) (stale : KafkaChannel) (e : error) (h : History) :
  exists evs,
    reconciler.RetryErrors steps errors.IsConflict attempt (S n) stale (Some e) h
      = (lastAnswerOr (Some e) evs, h ++ evs).
Proof.
  revert n stale e h. induction steps as [|steps IH]; intros n stale e h.
  - exists []. by rewrite app_nil_r.
  - rewrite (RetryErrors_step r), (attempt_later r).
    cbv zeta. destruct (List.find _ _) as [fresh|].
    + destruct (decide (Status fresh = Status (mark fresh))) as [Heq|Hne].
      * by exists [KafkaChannelsGet (Namespace stale) (Name stale) (inr fresh)].
      * destruct (kafkasecret.updateStatus _ _ _ _) as [e'|] eqn:Hans.
        -- destruct (errors.IsConflict e') eqn:Hc.
           ++ destruct (IH (S n) fresh e'
                          ((h ++ [KafkaChannelsGet (Namespace stale) (Name stale) (inr fresh)])
                             ++ [KafkaChannelsUpdateStatus (Namespace fresh) (mark fresh) (Some e')]))
                as (evs & Hrun).
              exists (KafkaChannelsGet (Namespace stale) (Name stale) (inr fresh)
                      :: KafkaChannelsUpdateStatus (Namespace fresh) (mark fresh) (Some e')
                      :: evs).
              rewrite Hrun, !lastAnswerOr_cons. cbn [answerOf].
              by rewrite <- !app_assoc.
           ++ exists [KafkaChannelsGet (Namespace stale) (Name stale) (inr fresh);
                      KafkaChannelsUpdateStatus (Namespace fresh) (mark fresh) (Some e')].
              unfold ret. by rewrite <- app_assoc.
        -- exists [KafkaChannelsGet (Namespace stale) (Name stale) (inr fresh);
                   KafkaChannelsUpdateStatus (Namespace fresh) (mark fresh) None].
           unfold ret. by rewrite <- app_assoc.
    + by exists [KafkaChannelsGet (Namespace stale) (Name stale)
                   (inl (errors.NewNotFound "kafkachannel" (Name stale)))].
Qed.

Lemma updateKafkaChannelStatus_result (original : KafkaChannel) (h : History) :
  exists evs, update original h = (lastAnswerOr None evs, h ++ evs).
Proof.
  unfold kafkasecret.updateKafkaChannelStatus, reconciler.RetryUpdateConflicts.
  change reconciler.DefaultRetrySteps with 5%nat.
  rewrite (RetryErrors_step r), (attempt_first r).
  destruct (decide (Status original = Status (mark original))) as [Heq|Hne].
  - exists []. by rewrite app_nil_r.
  - cbv zeta. destruct (kafkasecret.updateStatus _ _ _ _) as [e|] eqn:Hans.
    + destruct (errors.IsConflict e) eqn:Hc.
      * destruct (RetryErrors_result 4 0 original e
                    (h ++ [KafkaChannelsUpdateStatus (Namespace original) (mark original) (Some e)]))
          as (evs & Hrun).
        exists (KafkaChannelsUpdateStatus (Namespace original) (mark original) (Some e) :: evs).
        rewrite Hrun, lastAnswerOr_cons. cbn [answerOf]. by rewrite <- app_assoc.
      * by exists [KafkaChannelsUpdateStatus (Namespace original) (mark original) (Some e)].
    + by exists [KafkaChannelsUpdateStatus (Namespace original) (mark original) None].
Qed.

(** X1. What a status update returns is the answer to the last call it
    made: the error of a rejected update or of a failed reload, success
    after an accepted update or after a reload that showed nothing to
    write; a run that makes no call succeeds. *)
Theorem updateKafkaChannelStatus_returns_last_answer (original : KafkaChannel) (h : History) :
  fst (update original h) = lastAnswerOr None (appended (update original) h).
Proof.
  destruct (updateKafkaChannelStatus_result original h) as (evs & Hrun).
  by rewrite (appended_app _ _ _ _ Hrun), Hrun.
Qed.

(** X2. A reload is never the first call of a status update and only
    ever follows an update call that was answered with a conflict; it asks
    for the namespace and name of the channel that update submitted.  At
    most [DefaultRetrySteps - 1] reloads are made. *)
Theorem reload_only_after_conflict (original : KafkaChannel) (h : History) :
  let evs := appended (update original) h in
  (forall i ns name reloaded,
     evs !! i = Some (KafkaChannelsGet ns name reloaded) ->
     exists j ns' ch e,
       i = S j
       /\ evs !! j = Some (KafkaChannelsUpdateStatus ns' ch (Some e))
       /\ errors.IsConflict e = true
       /\ ns = Namespace ch /\ name = Name ch)
  /\ (length (List.filter isKafkaChannelsGet evs) <= pred reconciler.DefaultRetrySteps)%nat.
Proof.
  destruct (updateKafkaChannelStatus_Submitted r serviceValid serviceReason serviceMessage
              deploymentValid deploymentReason deploymentMessage original h)
    as (res & evs & Hrun & Hshape).
  rewrite (appended_app _ _ _ _ Hrun). cbv zeta. split.
  - intros i ns name reloaded.
    apply (Submitted_reload_position mark (fun kc => proj1 (mark_leaves kc)) _ _ _ _ _ _ _ Hshape).
  - exact (Submitted_reloads_bounded mark _ _ _ Hshape).
Qed.

(** X3. The marking is idempotent, so a status update that starts from a
    copy already marked (what the store holds once an update was
    accepted) makes no call and succeeds. *)
Theorem updateKafkaChannelStatus_idempotent (kc : KafkaChannel) (h : History) :
  mark (mark kc) = mark kc /\ update (mark kc) h = (None, h).
Proof.
  split; [apply mark_idempotent|].
  unfold kafkasecret.updateKafkaChannelStatus, reconciler.RetryUpdateConflicts.
  change reconciler.DefaultRetrySteps with 5%nat.
  rewrite (RetryErrors_step r), (attempt_first r).
  by rewrite mark_idempotent, decide_True.
Qed.

(** X4. Every update call of a status update is addressed to the
    namespace of the channel it submits.  That channel is made from the
    original or from a copy a reload of the same run brought: it has that
    copy's metadata (name, namespace, resource version, labels) and that
    copy's Dispatcher condition, and its Service and Endpoints conditions
    are the ones specified: True when valid, else False with the given
    reason and message. *)
Theorem submitted_channel_keeps_metadata (original : KafkaChannel) (h : History) :
  let evs := appended (update original) h in
  forall i ns ch answer,
    evs !! i = Some (KafkaChannelsUpdateStatus ns ch answer) ->
    ns = Namespace ch
    /\ Service (Status ch)
       = Some (if serviceValid then markTrue else markFalse serviceReason serviceMessage)
    /\ Endpoints (Status ch)
       = Some (if deploymentValid then markTrue
               else markFalse deploymentReason deploymentMessage)
    /\ exists base,
         (base = original
          \/ exists j ns' name', evs !! j = Some (KafkaChannelsGet ns' name' (inr base)))
         /\ ObjectMeta ch = ObjectMeta base
         /\ Dispatcher (Status ch) = Dispatcher (Status base).
Proof.
  destruct (updateKafkaChannelStatus_Submitted r serviceValid serviceReason serviceMessage
              deploymentValid deploymentReason deploymentMessage original h)
    as (res & evs & Hrun & Hshape).
  rewrite (appended_app _ _ _ _ Hrun). cbv zeta. intros i ns ch answer Hi.
  split.
  { exact (Submitted_update_namespace mark (fun kc => proj1 (mark_leaves kc))
             _ _ _ _ _ _ _ Hshape Hi). }
  assert (Hbase : exists base,
            ch = mark base
            /\ (base = original
                \/ exists j ns' name', evs !! j = Some (KafkaChannelsGet ns' name' (inr base)))).
  { destruct i as [|i].
    - destruct (Submitted_first mark _ _ _ _ _ _ Hshape Hi) as [-> _].
      exists original. split; [reflexivity|by left].
    - destruct (Submitted_from_fresh mark _ _ _ _ _ _ _ Hshape Hi)
        as (ns' & name' & fresh & Hj & -> & _).
      exists fresh. split; [reflexivity|]. right. by exists i, ns', name'. }
  destruct Hbase as (base & -> & Hwhere).
  destruct (mark_leaves base) as (Hmeta & Hdispatcher & Hservice & Hendpoints).
  split; [exact Hservice|]. split; [exact Hendpoints|].
  exists base. by split_and!.
Qed.

(** X5. The loop skips the nil entries of the listed slice: it makes no
    call for them and counts no error for them, and runs the status update
    for the other entries in order. *)
Theorem updateLoop_skips_nil
    (kafkaChannels : list (option KafkaChannel)) (flag : bool) (h : History) :
  kafkasecret.updateLoop r kafkaChannels flag
      serviceValid serviceReason serviceMessage
      deploymentValid deploymentReason deploymentMessage h
  = let outcome := updateEach (fun kc => update kc) (omap id kafkaChannels) h in
    (flag || existsb isErr (fst outcome), snd outcome).
Proof.
  revert flag h. induction kafkaChannels as [|[kc|] rest IH]; intros flag h.
  - cbn. unfold ret. by rewrite orb_false_r.
  - cbn [omap list_omap kafkasecret.updateLoop updateEach id]. unfold bind, ret.
    destruct (kafkasecret.updateKafkaChannelStatus _ _ _ _ _ _ _ _ h) as [[e|] h1].
    + rewrite IH. cbv zeta. destruct (updateEach _ _ h1) as [errs h2].
      cbn [fst snd existsb isErr orb]. by destruct flag.
    + rewrite IH. cbv zeta. by destruct (updateEach _ _ h1) as [errs h2].
  - cbn [omap list_omap kafkasecret.updateLoop id]. apply IH.
Qed.

(** X6. When the lister cannot list, the pass returns the lister's error
    and has made the one List call: no channel is reloaded or updated. *)
Theorem list_failure_ends_the_pass
    (secret : corev1.Secret) (requirement : labels.Requirement) (h : History) (e : error) :
  requirementFor secret = inr requirement ->
  kafkasecret.listFailure (kafkasecret.kafkachannelLister r) h = Some e ->
  reconcile secret h = (Some e, h ++ [KafkaChannelsList labels.NewSelector (inl e)]).
Proof.
  intros Hreq Hfail. unfold kafkasecret.reconcileKafkaChannelStatus. rewrite Hreq.
  unfold bind at 1. unfold kafkasecret.List. rewrite call_run. by rewrite Hfail.
Qed.

(** X7. When the label key, or the secret's name as a label value, is
    rejected by the label validators, the pass returns an error and makes
    no call at all. *)
Theorem invalid_label_ends_the_pass (secret : corev1.Secret) (h : History) :
  validateLabelKey pkg (KafkaSecretLabel pkg) = false
  \/ validateLabelValue pkg (KafkaSecretLabel pkg)
       (metav1.Name (corev1.Secret_ObjectMeta secret)) = false ->
  exists e, reconcile secret h = (Some e, h).
Proof.
  intros Hinvalid. unfold kafkasecret.reconcileKafkaChannelStatus, labels.NewRequirement.
  destruct (validateLabelKey pkg (KafkaSecretLabel pkg)) eqn:Hkey.
  - destruct Hinvalid as [?|Hvalue]; [discriminate|].
    cbn. rewrite Hvalue. cbn. by eexists.
  - cbn. by eexists.
Qed.

Lemma updateEach_up_to_date (channels : list KafkaChannel) (h : History) :
  Forall (fun kc => Status (mark kc) = Status kc) channels ->
  updateEach (fun kc => update kc) channels h = (replicate (length channels) None, h).
Proof.
  induction 1 as [|kc rest Hkc Hrest IH]; [reflexivity|].
  cbn [updateEach]. unfold bind.
  assert (Hnoop : update kc h = (None, h)).
  { unfold kafkasecret.updateKafkaChannelStatus, reconciler.RetryUpdateConflicts.
    change reconciler.DefaultRetrySteps with 5%nat.
    rewrite (RetryErrors_step r), (attempt_first r). by rewrite decide_True. }
  by rewrite Hnoop, IH.
Qed.

(** X8. When every cached channel already has the status the pass would
    mark (in particular when no channel is cached), the pass makes the one
    List call, no update call, and succeeds. *)
Theorem up_to_date_channels_are_only_listed
    (secret : corev1.Secret) (requirement : labels.Requirement) (h : History) :
  requirementFor secret = inr requirement ->
  kafkasecret.listFailure (kafkasecret.kafkachannelLister r) h = None ->
  Forall (fun kc => Status (mark kc) = Status kc)
    (kafkasecret.indexer (kafkasecret.kafkachannelLister r) h) ->
  reconcile secret h
  = (None,
     h ++ [KafkaChannelsList labels.NewSelector
             (inr (Some <$> kafkasecret.indexer (kafkasecret.kafkachannelLister r) h))]).
Proof.
  intros Hreq Hok Hsettled. unfold kafkasecret.reconcileKafkaChannelStatus. rewrite Hreq.
  unfold bind at 1. rewrite (List_NewSelector r h Hok). cbv zeta.
  unfold bind at 1.
  rewrite (updateLoop_updateEach r), (updateEach_up_to_date _ _ Hsettled).
  assert (Hnone : forall n, existsb isErr (replicate n None) = false).
  { induction n; [reflexivity|]. cbn. assumption. }
  by rewrite Hnone.
Qed.

End AggregatorCoverage.

(** ** More on the builder and the engine *)

Lemma int32_in_range (x : Z) : (- 2 ^ 31 <= int32 x < 2 ^ 31)%Z.
Proof. unfold int32. pose proof (Z.mod_pos_bound (x + 2 ^ 31) (2 ^ 32)). lia. Qed.

Lemma int32_small (x : Z) : (- 2 ^ 31 <= x < 2 ^ 31)%Z -> int32 x = x.
Proof. intros Hx. unfold int32. rewrite Z.mod_small; lia. Qed.

Section EngineCoverage.

Context (pkg : Imports) (r : kafkachannel.Reconciler).

Local Abbreviation systemNamespace := (KnativeEventingNamespace pkg).
Local Abbreviation dispatcherName channel := (DispatcherDnsSafeName pkg channel).
Local Abbreviation secretName channel :=
  (kafkachannel.GetKafkaSecretName (kafkachannel.adminClient r) (TopicName pkg channel)).
Local Abbreviation deploymentFailed :=
  (event.String event.DispatcherDeploymentReconciliationFailed).
Local Abbreviation serviceFailed :=
  (event.String event.DispatcherServiceReconciliationFailed).
Local Abbreviation warned channel reason what err :=
  (match err with
   | Some e => [RecorderEventf channel corev1.EventTypeWarning reason (what +:+ errors.Error e)]
   | None => []
   end).
Local Abbreviation serviceAt h channel :=
  (kafkachannel.getService (kafkachannel.serviceLister r) h
     systemNamespace (dispatcherName channel)).
Local Abbreviation deploymentAt h channel :=
  (kafkachannel.getDeployment (kafkachannel.deploymentLister r) h
     systemNamespace (dispatcherName channel)).
Local Abbreviation builtService channel := (kafkachannel.newDispatcherService pkg r channel).
Local Abbreviation built channel := (kafkachannel.newDispatcherDeployment pkg r channel).

Lemma newDispatcherDeployment_bound (channel : KafkaChannel) :
  secretName channel <> EmptyString ->
  exists deployment, built channel = (Some deployment, None).
Proof.
  intros Hbound.
  unfold kafkachannel.newDispatcherDeployment, kafkachannel.dispatcherDeploymentEnvVars.
  cbv zeta. rewrite bool_decide_eq_false_2; [by eexists|].
  intros Hle. by apply Hbound, length_zero_empty.
Qed.

(** X9. The builder answers a deployment exactly when a secret is bound
    to the channel's topic and an error exactly when none is; it never
    answers both and never neither. *)
Theorem builder_succeeds_iff_secret_bound (channel : KafkaChannel) :
  (secretName channel <> EmptyString
   <-> exists deployment, built channel = (Some deployment, None))
  /\ (secretName channel = EmptyString
      <-> exists e, built channel = (None, Some e)).
Proof.
  destruct (decide (secretName channel = EmptyString)) as [Hempty|Hbound].
  - pose proof (newDispatcherDeployment_unbound pkg r channel Hempty) as Hnew.
    split; split.
    + intros Hbound. contradiction.
    + intros [deployment Hbuilt]. rewrite Hnew in Hbuilt. discriminate.
    + intros _. by eexists.
    + done.
  - destruct (newDispatcherDeployment_bound channel Hbound) as [deployment Hnew].
    split; split.
    + intros _. by eexists.
    + done.
    + intros Hempty. contradiction.
    + intros [e Hbuilt]. rewrite Hnew in Hbuilt. discriminate.
Qed.

(** X10. A create call is only ever made when the lookup of that object,
    made just before, answered NotFound; the object submitted is the one
    the builder makes for the channel, and lookup and creation are then
    the only calls of that reconciler. *)
Theorem create_only_after_not_found (channel : KafkaChannel) (h : History) :
  (forall ns service created,
     In (ServicesCreate ns service created)
        (appended (kafkachannel.reconcileDispatcherService pkg r channel) h) ->
     exists e,
       serviceAt h channel = inl e
       /\ errors.IsNotFound e = true
       /\ service = builtService channel
       /\ appended (kafkachannel.reconcileDispatcherService pkg r channel) h
          = [ServicesGet systemNamespace (dispatcherName channel) (inl e);
             ServicesCreate ns service created])
  /\ (forall ns deployment created,
        In (DeploymentsCreate ns deployment created)
           (appended (kafkachannel.reconcileDispatcherDeployment pkg r channel) h) ->
        exists e,
          deploymentAt h channel = inl e
          /\ errors.IsNotFound e = true
          /\ built channel = (Some deployment, None)
          /\ appended (kafkachannel.reconcileDispatcherDeployment pkg r channel) h
             = [DeploymentsGet systemNamespace (dispatcherName channel) (inl e);
                DeploymentsCreate ns deployment created]).
Proof.
  split.
  - intros ns service created.
    pose proof (reconcileDispatcherService_run pkg r channel h) as Hrun. cbv zeta in Hrun.
    destruct (serviceAt h channel) as [e|found].
    + destruct (errors.IsNotFound e) eqn:Hnf.
      * rewrite <- app_assoc in Hrun. rewrite (appended_app _ _ _ _ Hrun).
        intros [?|[Heq|[]]]; [discriminate|]. injection Heq as <- <- <-. by exists e.
      * rewrite (appended_app _ _ _ _ Hrun). by intros [?|[]].
    + rewrite (appended_app _ _ _ _ Hrun). by intros [?|[]].
  - intros ns deployment created.
    pose proof (reconcileDispatcherDeployment_run pkg r channel h) as Hrun. cbv zeta in Hrun.
    destruct (deploymentAt h channel) as [e|found].
    + destruct (errors.IsNotFound e) eqn:Hnf.
      * destruct (built channel) as [[deployment'|] [e'|]] eqn:Hnew.
        -- rewrite (appended_app _ _ _ _ Hrun). by intros [?|[]].
        -- rewrite <- app_assoc in Hrun. rewrite (appended_app _ _ _ _ Hrun).
           intros [?|[Heq|[]]]; [discriminate|]. injection Heq as <- <- <-. by exists e.
        -- rewrite (appended_app _ _ _ _ Hrun). by intros [?|[]].
        -- rewrite (appended_app _ _ _ _ Hrun). by intros [?|[]].
      * rewrite (appended_app _ _ _ _ Hrun). by intros [?|[]].
    + rewrite (appended_app _ _ _ _ Hrun). by intros [?|[]].
Qed.

(** X11. When service and deployment are both found, a pass makes the two
    lookups and nothing else: no create call, no warning recorded; it
    succeeds, and the channel's status is the one propagated from the
    deployment found. *)
Theorem present_objects_are_only_verified
    (channel : KafkaChannel) (h : History)
    (service : corev1.Service) (deployment : appsv1.Deployment) :
  serviceAt h channel = inr service ->
  deploymentAt (h ++ [ServicesGet systemNamespace (dispatcherName channel) (inr service)])
    channel = inr deployment ->
  kafkachannel.reconcileDispatcher pkg r channel h
  = ((None,
      withStatus channel
        (PropagateDispatcherStatus pkg (appsv1.Status deployment) (Status channel))),
     h ++ [ServicesGet systemNamespace (dispatcherName channel) (inr service);
           DeploymentsGet systemNamespace (dispatcherName channel) (inr deployment)]).
Proof.
  intros Hservice Hdeployment.
  pose proof (reconcileDispatcher_run pkg r channel h) as Hrun. cbv zeta in Hrun.
  rewrite reconcileDispatcherService_run in Hrun. cbv zeta in Hrun.
  rewrite Hservice in Hrun. cbn [fst snd] in Hrun. rewrite app_nil_r in Hrun.
  rewrite reconcileDispatcherDeployment_run in Hrun. cbv zeta in Hrun.
  rewrite Hdeployment in Hrun. cbn [fst snd isErr orb] in Hrun.
  rewrite Hrun, app_nil_r. by rewrite <- app_assoc.
Qed.

(** X12. A first pass: when neither object exists, a secret is bound and
    both creations are accepted, the pass makes four calls in this order:
    service lookup, service creation, deployment lookup, deployment
    creation; it records no warning and succeeds, and the channel's status
    is the one propagated from the deployment the store answered. *)
Theorem first_pass_creates_both
    (channel : KafkaChannel) (h : History) (e1 e2 : error)
    (deployment : appsv1.Deployment)
    (service' : corev1.Service) (deployment' : appsv1.Deployment) :
  let lookup1 := ServicesGet systemNamespace (dispatcherName channel) (inl e1) in
  let create1 := ServicesCreate systemNamespace (builtService channel) (inr service') in
  let lookup2 := DeploymentsGet systemNamespace (dispatcherName channel) (inl e2) in
  let create2 := DeploymentsCreate systemNamespace deployment (inr deployment') in
  built channel = (Some deployment, None) ->
  serviceAt h channel = inl e1 -> errors.IsNotFound e1 = true ->
  kafkachannel.createService (kafkachannel.kubeClientset r) (h ++ [lookup1])
    systemNamespace (builtService channel) = inr service' ->
  deploymentAt (h ++ [lookup1; create1]) channel = inl e2 -> errors.IsNotFound e2 = true ->
  kafkachannel.createDeployment (kafkachannel.kubeClientset r)
    (h ++ [lookup1; create1; lookup2]) systemNamespace deployment = inr deployment' ->
  kafkachannel.reconcileDispatcher pkg r channel h
  = ((None,
      withStatus channel
        (PropagateDispatcherStatus pkg (appsv1.Status deployment') (Status channel))),
     h ++ [lookup1; create1; lookup2; create2]).
Proof.
  cbv zeta. intros Hbuilt Hget1 Hnf1 Hcreate1 Hget2 Hnf2 Hcreate2.
  pose proof (reconcileDispatcher_run pkg r channel h) as Hrun. cbv zeta in Hrun.
  rewrite reconcileDispatcherService_run in Hrun. cbv zeta in Hrun.
  rewrite Hget1, Hnf1, Hcreate1 in Hrun. cbn [fst snd] in Hrun.
  rewrite app_nil_r, <- app_assoc in Hrun. cbn [app] in Hrun.
  rewrite reconcileDispatcherDeployment_run in Hrun. cbv zeta in Hrun.
  rewrite Hget2, Hnf2, Hbuilt in Hrun.
  rewrite <- (app_assoc h) in Hrun. cbn [app] in Hrun.
  rewrite Hcreate2 in Hrun. cbn [fst snd isErr orb] in Hrun.
  rewrite Hrun, app_nil_r. by rewrite <- !app_assoc.
Qed.

(** X13. A creation the store rejects is not retried within the pass.
    For the service the store's error is returned and the channel is left
    as it was; for the deployment the store's error is returned and the
    Dispatcher condition is marked Failed with the reason
    DispatcherDeploymentReconciliationFailed and a message that carries
    the error, the other conditions being kept. *)
Theorem create_failure_is_returned
    (channel : KafkaChannel) (h : History) (e e' : error) :
  errors.IsNotFound e = true ->
  (serviceAt h channel = inl e ->
   kafkachannel.createService (kafkachannel.kubeClientset r)
     (h ++ [ServicesGet systemNamespace (dispatcherName channel) (inl e)])
     systemNamespace (builtService channel) = inl e' ->
   kafkachannel.reconcileDispatcherService pkg r channel h
   = ((Some e', channel),
      h ++ [ServicesGet systemNamespace (dispatcherName channel) (inl e);
            ServicesCreate systemNamespace (builtService channel) (inl e')]))
  /\ (forall deployment,
        built channel = (Some deployment, None) ->
        deploymentAt h channel = inl e ->
        kafkachannel.createDeployment (kafkachannel.kubeClientset r)
          (h ++ [DeploymentsGet systemNamespace (dispatcherName channel) (inl e)])
          systemNamespace deployment = inl e' ->
        kafkachannel.reconcileDispatcherDeployment pkg r channel h
        = ((Some e',
            {| ObjectMeta := ObjectMeta channel;
               Status :=
                 {| Service := Service (Status channel);
                    Endpoints := Endpoints (Status channel);
                    Dispatcher :=
                      Some (markFalse deploymentFailed
                              ("Failed To Create Dispatcher Deployment: "
                                 +:+ errors.Error e')) |} |}),
           h ++ [DeploymentsGet systemNamespace (dispatcherName channel) (inl e);
                 DeploymentsCreate systemNamespace deployment (inl e')])).
Proof.
  intros Hnf. split.
  - intros Hget Hcreate. rewrite reconcileDispatcherService_run. cbv zeta.
    rewrite Hget, Hnf, Hcreate. by rewrite <- app_assoc.
  - intros deployment Hbuilt Hget Hcreate. rewrite reconcileDispatcherDeployment_run.
    cbv zeta. rewrite Hget, Hnf, Hbuilt, Hcreate. by rewrite <- app_assoc.
Qed.

(** X14. Whenever the deployment reconciler returns an error, it leaves
    the Dispatcher condition False or Unknown, never True, with the reason
    DispatcherDeploymentReconciliationFailed, and keeps the Service and
    Endpoints conditions.  Whatever it returns, it keeps the channel's
    metadata. *)
Theorem deployment_failure_marks_dispatcher (channel : KafkaChannel) (h : History) :
  let run := kafkachannel.reconcileDispatcherDeployment pkg r channel h in
  ObjectMeta (snd (fst run)) = ObjectMeta channel
  /\ (forall e,
        fst (fst run) = Some e ->
        (exists state message,
           Dispatcher (Status (snd (fst run)))
           = Some {| State := state; Reason := deploymentFailed; Message := message |}
           /\ state <> ConditionTrue)
        /\ Service (Status (snd (fst run))) = Service (Status channel)
        /\ Endpoints (Status (snd (fst run))) = Endpoints (Status channel)).
Proof.
  cbv zeta. rewrite reconcileDispatcherDeployment_run. cbv zeta.
  destruct (deploymentAt h channel) as [e0|found]; [|split; [reflexivity|discriminate]].
  destruct (errors.IsNotFound e0).
  - destruct (built channel) as [[deployment|] [e'|]] eqn:Hnew.
    + split; [reflexivity|]. intros e _. split; [|done].
      eexists ConditionFalse, _. by split.
    + destruct (kafkachannel.createDeployment _ _ _ _) as [e'|created].
      * split; [reflexivity|]. intros e _. split; [|done].
        eexists ConditionFalse, _. by split.
      * split; [reflexivity|discriminate].
    + split; [reflexivity|]. intros e _. split; [|done].
      eexists ConditionFalse, _. by split.
    + split; [reflexivity|discriminate].
  - split; [reflexivity|]. intros e _. split; [|done].
    eexists ConditionUnknown, _. by split.
Qed.

End EngineCoverage.

Section BuilderCoverage.

Context (pkg : Imports) (r : kafkachannel.Reconciler).

Local Abbreviation systemNamespace := (KnativeEventingNamespace pkg).
Local Abbreviation dispatcherName channel := (DispatcherDnsSafeName pkg channel).
Local Abbreviation deploymentFailed :=
  (event.String event.DispatcherDeploymentReconciliationFailed).
Local Abbreviation serviceFailed :=
  (event.String event.DispatcherServiceReconciliationFailed).
Local Abbreviation warned channel reason what err :=
  (match err with
   | Some e => [RecorderEventf channel corev1.EventTypeWarning reason (what +:+ errors.Error e)]
   | None => []
   end).
Local Abbreviation builtService channel := (kafkachannel.newDispatcherService pkg r channel).
Local Abbreviation built channel := (kafkachannel.newDispatcherDeployment pkg r channel).

(** What a successful build returns, field by field. *)
Lemma newDispatcherDeployment_built (channel : KafkaChannel) (deployment : appsv1.Deployment) :
  built channel = (Some deployment, None) ->
  exists envVars,
    kafkachannel.dispatcherDeploymentEnvVars pkg r channel = (envVars, None)
    /\ take 10 envVars
       = [ kafkachannel.plainEnvVar (NamespaceEnvKey pkg) systemNamespace;
           {| corev1.Name := PodNameEnvVarKey pkg;
              corev1.Value := EmptyString;
              corev1.ValueFrom :=
                Some {| corev1.FieldRef := Some {| corev1.FieldPath := "metadata.name" |};
                        corev1.SecretKeyRef := None |} |};
           kafkachannel.plainEnvVar (ContainerNameEnvVarKEy pkg) (DispatcherContainerName pkg);
           kafkachannel.plainEnvVar (KnativeLoggingConfigMapNameEnvVarKey pkg) (ConfigMapName pkg);
           kafkachannel.plainEnvVar (MetricsPortEnvVarKey pkg)
             (Itoa (kafkachannel.MetricsPort (kafkachannel.environment r)));
           kafkachannel.plainEnvVar (MetricsDomainEnvVarKey pkg)
             (kafkachannel.MetricsDomain (kafkachannel.environment r));
           kafkachannel.plainEnvVar (HealthPortEnvVarKey pkg) (Itoa (HealthPort pkg));
           kafkachannel.plainEnvVar (ChannelKeyEnvVarKey pkg) (ChannelKey pkg channel);
           kafkachannel.plainEnvVar (ServiceNameEnvVarKey pkg) (dispatcherName channel);
           kafkachannel.plainEnvVar (KafkaTopicEnvVarKey pkg) (TopicName pkg channel) ]
    /\ metav1.Name (appsv1.ObjectMeta deployment) = dispatcherName channel
    /\ metav1.Namespace (appsv1.ObjectMeta deployment) = systemNamespace
    /\ metav1.Labels (appsv1.ObjectMeta deployment)
       = list_to_map
           [ (AppLabel pkg, dispatcherName channel);
             (KafkaChannelDispatcherLabel pkg, "true");
             (KafkaChannelNameLabel pkg, Name channel);
             (KafkaChannelNamespaceLabel pkg, Namespace channel) ]
    /\ metav1.OwnerReferences (appsv1.ObjectMeta deployment)
       = [NewChannelOwnerReference pkg channel]
    /\ appsv1.Replicas (appsv1.Spec deployment)
       = Some (int32 (kafkachannel.Replicas (kafkachannel.config r)))
    /\ appsv1.MatchLabels (appsv1.Spec deployment)
       = list_to_map [ (AppLabel pkg, dispatcherName channel) ]
    /\ corev1.Template_Labels (appsv1.Template (appsv1.Spec deployment))
       = list_to_map [ (AppLabel pkg, dispatcherName channel) ]
    /\ corev1.Container_Name
         <$> corev1.Containers
               (corev1.Template_Spec (appsv1.Template (appsv1.Spec deployment)))
       = [dispatcherName channel]
    /\ corev1.Env
         <$> corev1.Containers
               (corev1.Template_Spec (appsv1.Template (appsv1.Spec deployment)))
       = [envVars].
Proof.
  unfold kafkachannel.newDispatcherDeployment, kafkachannel.dispatcherDeploymentEnvVars.
  cbv zeta. destruct (bool_decide _); [discriminate|].
  intros [= <-]. eexists. by split_and!.
Qed.

(** X15. The warnings a pass records are exactly the ones for the
    sub-resources that failed, in that order: one for the service when
    the service reconciler returned an error, one for the deployment when
    the deployment reconciler did, each naming its reason and carrying
    the error's text; a pass without failure records none. *)
Theorem warnings_match_failures (channel : KafkaChannel) (h : History) :
  let service := kafkachannel.reconcileDispatcherService pkg r channel h in
  let serviceErr := fst (fst service) in
  let warned1 :=
    warned channel serviceFailed "Failed To Reconcile Dispatcher Service: " serviceErr in
  let deployment :=
    kafkachannel.reconcileDispatcherDeployment pkg r channel (snd service ++ warned1) in
  let deploymentErr := fst (fst deployment) in
  List.filter isRecorderEventf (appended (kafkachannel.reconcileDispatcher pkg r channel) h)
  = warned1
    ++ warned (snd (fst deployment)) deploymentFailed
         "Failed To Reconcile Dispatcher Deployment: " deploymentErr.
Proof.
  cbv zeta.
  destruct (reconcileDispatcherService_calls pkg r channel h)
    as (serviceErr & got1 & rest1 & Hservice & Hrest1).
  pose proof (reconcileDispatcher_run pkg r channel h) as Hrun. cbv zeta in Hrun.
  rewrite Hservice in Hrun |- *. cbn [fst snd] in Hrun |- *.
  destruct (reconcileDispatcherDeployment_calls pkg r channel
              ((h ++ ServicesGet systemNamespace (dispatcherName channel) got1 :: rest1)
                 ++ warned channel serviceFailed
                      "Failed To Reconcile Dispatcher Service: " serviceErr))
    as ([deploymentErr channel'] & got2 & rest2 & Hdeployment & Hrest2).
  rewrite Hdeployment in Hrun |- *. cbn [fst snd] in Hrun |- *.
  assert (Hevs :
    appended (kafkachannel.reconcileDispatcher pkg r channel) h
    = (ServicesGet systemNamespace (dispatcherName channel) got1 :: rest1)
      ++ warned channel serviceFailed "Failed To Reconcile Dispatcher Service: " serviceErr
      ++ (DeploymentsGet systemNamespace (dispatcherName channel) got2 :: rest2)
      ++ warned channel' deploymentFailed
           "Failed To Reconcile Dispatcher Deployment: " deploymentErr).
  { eapply appended_app. rewrite Hrun. f_equal. by rewrite <- !app_assoc. }
  rewrite Hevs, !List.filter_app.
  assert (Hquiet1 :
    List.filter isRecorderEventf
      (ServicesGet systemNamespace (dispatcherName channel) got1 :: rest1) = []).
  { by destruct Hrest1 as [->|[created ->]]. }
  assert (Hquiet2 :
    List.filter isRecorderEventf
      (DeploymentsGet systemNamespace (dispatcherName channel) got2 :: rest2) = []).
  { by destruct Hrest2 as [->|(deployment & created & _ & ->)]. }
  rewrite Hquiet1, Hquiet2. cbn [app].
  by destruct serviceErr, deploymentErr.
Qed.

(** X16. Service and deployment built for one channel go together: they
    have the same name and the same namespace and are owned by the
    channel; the selector of the service is the selector of the
    deployment, which is the set of labels of the deployment's pods; the
    container is named after the deployment; and the container's ninth
    variable hands the service's name to the dispatcher, its first the
    namespace both objects live in. *)
Theorem service_and_deployment_agree (channel : KafkaChannel) (deployment : appsv1.Deployment) :
  built channel = (Some deployment, None) ->
  let service := builtService channel in
  metav1.Name (corev1.Service_ObjectMeta service)
    = metav1.Name (appsv1.ObjectMeta deployment)
  /\ metav1.Namespace (corev1.Service_ObjectMeta service)
     = metav1.Namespace (appsv1.ObjectMeta deployment)
  /\ metav1.OwnerReferences (corev1.Service_ObjectMeta service)
     = metav1.OwnerReferences (appsv1.ObjectMeta deployment)
  /\ corev1.Selector (corev1.Service_Spec service)
     = appsv1.MatchLabels (appsv1.Spec deployment)
  /\ appsv1.MatchLabels (appsv1.Spec deployment)
     = corev1.Template_Labels (appsv1.Template (appsv1.Spec deployment))
  /\ corev1.Container_Name
       <$> corev1.Containers
             (corev1.Template_Spec (appsv1.Template (appsv1.Spec deployment)))
     = [metav1.Name (appsv1.ObjectMeta deployment)]
  /\ (forall envVars,
        corev1.Env
          <$> corev1.Containers
                (corev1.Template_Spec (appsv1.Template (appsv1.Spec deployment)))
        = [envVars] ->
        envVars !! 8%nat
        = Some (kafkachannel.plainEnvVar (ServiceNameEnvVarKey pkg)
                  (metav1.Name (corev1.Service_ObjectMeta service)))
        /\ envVars !! 0%nat
           = Some (kafkachannel.plainEnvVar (NamespaceEnvKey pkg)
                     (metav1.Namespace (corev1.Service_ObjectMeta service)))).
Proof.
  intros Hbuilt.
  destruct (newDispatcherDeployment_built channel deployment Hbuilt)
    as (envVars & _ & Hfixed & Hname & Hns & _ & Howner & _ & Hmatch & Htemplate
        & Hcontainer & Henv).
  cbv zeta. rewrite Hname, Hns, Howner, Hmatch, Htemplate, Hcontainer, Henv.
  split_and!; try reflexivity.
  intros envVars' [= <-].
  assert (H8 : take 10 envVars !! 8%nat = envVars !! 8%nat) by by rewrite lookup_take_lt by lia.
  assert (H0 : take 10 envVars !! 0%nat = envVars !! 0%nat) by by rewrite lookup_take_lt by lia.
  rewrite <- H8, <- H0, Hfixed. by split.
Qed.

(** X17. Provided the label keys are pairwise distinct, the deployment and
    the service built for a channel can be found from the channel: each
    carries the channel's name and the channel's namespace under their
    label keys and is marked as a dispatcher; the deployment carries its
    own name under the app label. *)
Theorem labels_identify_the_channel (channel : KafkaChannel) (deployment : appsv1.Deployment) :
  NoDup [ AppLabel pkg; KafkaChannelDispatcherLabel pkg;
          KafkaChannelNameLabel pkg; KafkaChannelNamespaceLabel pkg ] ->
  NoDup [ KafkaChannelDispatcherLabel pkg; KafkaChannelNameLabel pkg;
          KafkaChannelNamespaceLabel pkg; K8sAppDispatcherSelectorLabel pkg ] ->
  built channel = (Some deployment, None) ->
  let onDeployment := metav1.Labels (appsv1.ObjectMeta deployment) in
  let onService := metav1.Labels (corev1.Service_ObjectMeta (builtService channel)) in
  onDeployment !! KafkaChannelNameLabel pkg = Some (Name channel)
  /\ onDeployment !! KafkaChannelNamespaceLabel pkg = Some (Namespace channel)
  /\ onDeployment !! KafkaChannelDispatcherLabel pkg = Some "true"
  /\ onDeployment !! AppLabel pkg = Some (dispatcherName channel)
  /\ onService !! KafkaChannelNameLabel pkg = Some (Name channel)
  /\ onService !! KafkaChannelNamespaceLabel pkg = Some (Namespace channel)
  /\ onService !! KafkaChannelDispatcherLabel pkg = Some "true"
  /\ onService !! K8sAppDispatcherSelectorLabel pkg = Some (K8sAppDispatcherSelectorValue pkg).
Proof.
  intros Hdistinct1 Hdistinct2 Hbuilt.
  destruct (newDispatcherDeployment_built channel deployment Hbuilt)
    as (envVars & _ & _ & _ & _ & Hlabels & _).
  cbv zeta. rewrite Hlabels. cbn [kafkachannel.newDispatcherService
    corev1.Service_ObjectMeta metav1.Labels].
  split_and!; apply elem_of_list_to_map_1; try assumption; set_solver.
Qed.

(** X18. The replica count the deployment asks for and the port the
    service exposes are the configured ones converted to 32 bits: they
    always lie within the 32-bit range, and they are the configured
    values themselves whenever those lie within it.  The service exposes
    this one port only, under the metrics port name. *)
Theorem replicas_and_port_as_configured (channel : KafkaChannel) (deployment : appsv1.Deployment) :
  built channel = (Some deployment, None) ->
  let replicas := kafkachannel.Replicas (kafkachannel.config r) in
  let metricsPort := kafkachannel.MetricsPort (kafkachannel.environment r) in
  let ports := corev1.Ports (corev1.Service_Spec (builtService channel)) in
  (exists n, appsv1.Replicas (appsv1.Spec deployment) = Some n
             /\ (- 2 ^ 31 <= n < 2 ^ 31)%Z
             /\ ((- 2 ^ 31 <= replicas < 2 ^ 31)%Z -> n = replicas))
  /\ corev1.Port_Name <$> ports = [MetricsPortName pkg]
  /\ (exists p, corev1.Port <$> ports = [p]
                /\ (- 2 ^ 31 <= p < 2 ^ 31)%Z
                /\ ((- 2 ^ 31 <= metricsPort < 2 ^ 31)%Z -> p = metricsPort)).
Proof.
  intros Hbuilt.
  destruct (newDispatcherDeployment_built channel deployment Hbuilt)
    as (envVars & _ & _ & _ & _ & _ & _ & Hreplicas & _).
  cbv zeta. split; [|split].
  - eexists. split; [exact Hreplicas|]. split; [apply int32_in_range|apply int32_small].
  - reflexivity.
  - eexists. split; [reflexivity|]. split; [apply int32_in_range|apply int32_small].
Qed.

End BuilderCoverage.

Section PassCoverage.

Context (pkg : Imports) (r : kafkachannel.Reconciler).

(** X19. A pass never creates an object twice: among its calls there is
    at most one creation of a service and at most one creation of a
    deployment, so at most two create calls in all. *)
Theorem at_most_one_create_per_kind (channel : KafkaChannel) (h : History) :
  let evs := appended (kafkachannel.reconcileDispatcher pkg r channel) h in
  (length (List.filter (fun ev => match ev with ServicesCreate _ _ _ => true | _ => false end)
             evs) <= 1)%nat
  /\ (length (List.filter
                (fun ev => match ev with DeploymentsCreate _ _ _ => true | _ => false end)
                evs) <= 1)%nat
  /\ (length (List.filter isCreate evs) <= 2)%nat.
Proof.
  cbv zeta.
  destruct (reconcileDispatcher_calls pkg r channel h)
    as (serviceErr & got1 & rest1 & res2 & got2 & rest2 & _ & Hrest1 & Hrest2 & Hevs).
  rewrite Hevs. clear Hevs.
  cbn [List.filter]. rewrite !List.filter_app. cbn [List.filter]. rewrite !List.filter_app.
  destruct Hrest1 as [->|[created1 ->]];
    destruct Hrest2 as [->|(deployment & created2 & _ & ->)];
    destruct serviceErr, (fst res2); cbn; lia.
Qed.

End PassCoverage.

(** ** The further properties on the sample installation *)

(** The contended cluster: the one reload follows the conflicting update. *)
Lemma reload_only_after_conflict_witness :
  let evs := appended (sample.update sample.contended sample.chanA) [] in
  evs !! 1%nat = Some (KafkaChannelsGet "ns1" "chan-a" (inr sample.chanA2))
  /\ exists j ns' ch e,
       1%nat = S j
       /\ evs !! j = Some (KafkaChannelsUpdateStatus ns' ch (Some e))
       /\ errors.IsConflict e = true
       /\ "ns1" = Namespace ch /\ "chan-a" = Name ch.
Proof.
  cbv zeta. split; [reflexivity|].
  apply (proj1 (reload_only_after_conflict sample.contended
                  true EmptyString EmptyString true EmptyString EmptyString
                  sample.chanA []) 1%nat "ns1" "chan-a" (inr sample.chanA2)).
  reflexivity.
Defined.

(** The contended cluster: the update made after the reload carries the
    reloaded version's metadata and Dispatcher condition. *)
Lemma submitted_channel_keeps_metadata_witness :
  let evs := appended (sample.update sample.contended sample.chanA) [] in
  evs !! 2%nat = Some (KafkaChannelsUpdateStatus "ns1" (sample.marked sample.chanA2) None)
  /\ "ns1" = Namespace (sample.marked sample.chanA2)
  /\ Service (Status (sample.marked sample.chanA2)) = Some markTrue
  /\ Endpoints (Status (sample.marked sample.chanA2)) = Some markTrue
  /\ exists base,
       (base = sample.chanA
        \/ exists j ns' name', evs !! j = Some (KafkaChannelsGet ns' name' (inr base)))
       /\ ObjectMeta (sample.marked sample.chanA2) = ObjectMeta base
       /\ Dispatcher (Status (sample.marked sample.chanA2)) = Dispatcher (Status base).
Proof.
  cbv zeta. split; [reflexivity|].
  apply (submitted_channel_keeps_metadata sample.contended
           true EmptyString EmptyString true EmptyString EmptyString
           sample.chanA [] 2%nat "ns1" (sample.marked sample.chanA2) None).
  reflexivity.
Defined.

(** The lister is down: one call, its error returned. *)
Lemma list_failure_ends_the_pass_witness :
  kafkasecret.listFailure (kafkasecret.kafkachannelLister sample.listDown) []
    = Some sample.unavailable
  /\ sample.reconcileStatus sample.listDown []
     = (Some sample.unavailable,
        [KafkaChannelsList labels.NewSelector (inl sample.unavailable)]).
Proof.
  split; [reflexivity|].
  apply (list_failure_ends_the_pass sample.pkg sample.listDown
           true EmptyString EmptyString true EmptyString EmptyString sample.secretA
           {| labels.key := "kafkasecret"; labels.operator := labels.Equals;
              labels.strValues := ["secret-a"] |} [] sample.unavailable); reflexivity.
Defined.

(** A secret with a name of more than 63 characters: an error, no call. *)
Lemma invalid_label_ends_the_pass_witness :
  validateLabelValue sample.pkg (KafkaSecretLabel sample.pkg)
    (metav1.Name (corev1.Secret_ObjectMeta sample.longSecret)) = false
  /\ exists e,
       kafkasecret.reconcileKafkaChannelStatus sample.pkg sample.calm sample.longSecret
         true EmptyString EmptyString true EmptyString EmptyString [] = (Some e, []).
Proof.
  split; [reflexivity|].
  apply (invalid_label_ends_the_pass sample.pkg sample.calm
           true EmptyString EmptyString true EmptyString EmptyString sample.longSecret []).
  right. reflexivity.
Defined.

(** The quiet cluster: the cached channel is up to date, the one call is
    the listing, although the store would reject any update. *)
Lemma up_to_date_channels_are_only_listed_witness :
  Forall (fun kc => Status (sample.marked kc) = Status kc)
    (kafkasecret.indexer (kafkasecret.kafkachannelLister sample.quiet) [])
  /\ sample.reconcileStatus sample.quiet []
     = (None, [KafkaChannelsList labels.NewSelector (inr [Some sample.settled])]).
Proof.
  assert (Hsettled :
    Forall (fun kc => Status (sample.marked kc) = Status kc)
      (kafkasecret.indexer (kafkasecret.kafkachannelLister sample.quiet) [])).
  { repeat constructor. }
  split; [exact Hsettled|].
  apply (up_to_date_channels_are_only_listed sample.pkg sample.quiet
           true EmptyString EmptyString true EmptyString EmptyString sample.secretA
           {| labels.key := "kafkasecret"; labels.operator := labels.Equals;
              labels.strValues := ["secret-a"] |} []); [reflexivity|reflexivity|exact Hsettled].
Defined.

(** A first pass: the service is created after its lookup answered
    NotFound. *)
Lemma create_only_after_not_found_witness :
  let service := kafkachannel.newDispatcherService sample.pkg sample.firstPass sample.chanA in
  In (ServicesCreate "knative-eventing" service (inr service))
     (appended (kafkachannel.reconcileDispatcherService
                  sample.pkg sample.firstPass sample.chanA) [])
  /\ exists e,
       kafkachannel.getService (kafkachannel.serviceLister sample.firstPass) []
         "knative-eventing" "chan-a-ns1-dispatcher" = inl e
       /\ errors.IsNotFound e = true.
Proof.
  cbv zeta.
  assert (Hin :
    In (ServicesCreate "knative-eventing"
          (kafkachannel.newDispatcherService sample.pkg sample.firstPass sample.chanA)
          (inr (kafkachannel.newDispatcherService sample.pkg sample.firstPass sample.chanA)))
       (appended (kafkachannel.reconcileDispatcherService
                    sample.pkg sample.firstPass sample.chanA) [])).
  { right. left. reflexivity. }
  split; [exact Hin|].
  destruct (proj1 (create_only_after_not_found sample.pkg sample.firstPass sample.chanA [])
              _ _ _ Hin) as (e & Hget & Hnf & _).
  by exists e.
Defined.

(** The steady cluster: two lookups, nothing else. *)
Lemma present_objects_are_only_verified_witness :
  snd (kafkachannel.reconcileDispatcher sample.pkg sample.steady sample.chanA [])
  = [ServicesGet "knative-eventing" "chan-a-ns1-dispatcher" (inr sample.liveService);
     DeploymentsGet "knative-eventing" "chan-a-ns1-dispatcher" (inr sample.liveDeployment)].
Proof.
  rewrite (present_objects_are_only_verified sample.pkg sample.steady sample.chanA []
             sample.liveService sample.liveDeployment eq_refl eq_refl).
  reflexivity.
Defined.

(** The first pass on the sample: four calls. *)
Lemma first_pass_creates_both_witness :
  kafkachannel.newDispatcherDeployment sample.pkg sample.firstPass sample.chanA
    = (Some sample.dispatcherOfA, None)
  /\ length (snd (kafkachannel.reconcileDispatcher sample.pkg sample.firstPass sample.chanA []))
     = 4%nat
  /\ fst (fst (kafkachannel.reconcileDispatcher sample.pkg sample.firstPass sample.chanA []))
     = None.
Proof.
  split; [reflexivity|].
  rewrite (first_pass_creates_both sample.pkg sample.firstPass sample.chanA []
             sample.notFound sample.notFound sample.dispatcherOfA
             (kafkachannel.newDispatcherService sample.pkg sample.firstPass sample.chanA)
             sample.dispatcherOfA
             eq_refl eq_refl eq_refl eq_refl eq_refl eq_refl eq_refl).
  by split.
Defined.

(** The read-only cluster: both creations are rejected, each error is
    returned, Dispatcher is Failed. *)
Lemma create_failure_is_returned_witness :
  errors.IsNotFound sample.notFound = true
  /\ fst (kafkachannel.reconcileDispatcherService sample.pkg sample.readOnly sample.chanA [])
     = (Some sample.unavailable, sample.chanA)
  /\ stateOf (Dispatcher (Status (snd (fst
       (kafkachannel.reconcileDispatcherDeployment
          sample.pkg sample.readOnly sample.chanA []))))) = Some ConditionFalse.
Proof.
  split; [reflexivity|].
  destruct (create_failure_is_returned sample.pkg sample.readOnly sample.chanA []
              sample.notFound sample.unavailable eq_refl) as [Hservice Hdeployment].
  split.
  - by rewrite (Hservice eq_refl eq_refl).
  - by rewrite (Hdeployment sample.dispatcherOfA eq_refl eq_refl eq_refl).
Defined.

(** The halfway cluster: the deployment cannot be created, the error is
    returned and Dispatcher is not True. *)
Lemma deployment_failure_marks_dispatcher_witness :
  let run := kafkachannel.reconcileDispatcherDeployment
               sample.pkg sample.halfway sample.settled [] in
  fst (fst run) = Some sample.unavailable
  /\ (exists state message,
        Dispatcher (Status (snd (fst run)))
        = Some {| State := state;
                  Reason := "DispatcherDeploymentReconciliationFailed";
                  Message := message |}
        /\ state <> ConditionTrue)
  /\ Service (Status (snd (fst run))) = Some markTrue.
Proof.
  cbv zeta.
  destruct (proj2 (deployment_failure_marks_dispatcher sample.pkg sample.halfway
                     sample.settled []) sample.unavailable eq_refl)
    as (Hdispatcher & Hservice & _).
  split; [reflexivity|]. split; [exact Hdispatcher|]. by rewrite Hservice.
Defined.

(** The objects built for [chan-a]. *)
Lemma service_and_deployment_agree_witness :
  kafkachannel.newDispatcherDeployment sample.pkg sample.firstPass sample.chanA
    = (Some sample.dispatcherOfA, None)
  /\ corev1.Selector (corev1.Service_Spec
       (kafkachannel.newDispatcherService sample.pkg sample.firstPass sample.chanA))
     = corev1.Template_Labels (appsv1.Template (appsv1.Spec sample.dispatcherOfA)).
Proof.
  split; [reflexivity|].
  destruct (service_and_deployment_agree sample.pkg sample.firstPass sample.chanA
              sample.dispatcherOfA eq_refl) as (_ & _ & _ & Hselector & Hmatch & _).
  by rewrite Hselector, Hmatch.
Defined.

Lemma labels_identify_the_channel_witness :
  metav1.Labels (appsv1.ObjectMeta sample.dispatcherOfA) !! "kafkachannel-name"
    = Some "chan-a"
  /\ metav1.Labels (appsv1.ObjectMeta sample.dispatcherOfA) !! "kafkachannel-namespace"
     = Some "ns1".
Proof.
  assert (Hdistinct1 :
    NoDup [ AppLabel sample.pkg; KafkaChannelDispatcherLabel sample.pkg;
            KafkaChannelNameLabel sample.pkg; KafkaChannelNamespaceLabel sample.pkg ]).
  { refine (bool_decide_unpack _ _). vm_compute. exact I. }
  assert (Hdistinct2 :
    NoDup [ KafkaChannelDispatcherLabel sample.pkg; KafkaChannelNameLabel sample.pkg;
            KafkaChannelNamespaceLabel sample.pkg; K8sAppDispatcherSelectorLabel sample.pkg ]).
  { refine (bool_decide_unpack _ _). vm_compute. exact I. }
  destruct (labels_identify_the_channel sample.pkg sample.firstPass sample.chanA
              sample.dispatcherOfA Hdistinct1 Hdistinct2 eq_refl) as (Hname & Hns & _).
  by split.
Defined.

Lemma replicas_and_port_as_configured_witness :
  appsv1.Replicas (appsv1.Spec sample.dispatcherOfA) = Some 1%Z
  /\ corev1.Port
       <$> corev1.Ports (corev1.Service_Spec
             (kafkachannel.newDispatcherService sample.pkg sample.firstPass sample.chanA))
     = [8081%Z].
Proof.
  destruct (replicas_and_port_as_configured sample.pkg sample.firstPass sample.chanA
              sample.dispatcherOfA eq_refl)
    as ((n & Hn & _ & Hsame) & _ & (p & Hp & _ & Hport)).
  split.
  - rewrite Hn. f_equal. apply Hsame. vm_compute. by split.
  - rewrite Hp. f_equal. apply Hport. vm_compute. by split.
Defined.
